(** * Canteen Management API: order creation, pricing, status and metrics

    A shallow embedding of [src/main.py] and [src/schemas.py].

    - Python [float] is IEEE-754 binary64, modelled by [spec_float] with the
      operations of [SpecFloat] at precision 53 and exponent bound 1024.
    - JSON values, request dictionaries and stored documents are dynamically
      typed: [value] and [gmap string value].
    - The endpoints run in a state-and-exception monad over the global [db]
      handle, so that what is written before an exception is raised stays
      visible in the final state. *)

From Stdlib Require Import ZArith NArith String Ascii List Bool Lia.
From Stdlib Require Import Floats.SpecFloat.
From stdpp Require Import gmap strings list fin_maps pretty.

Local Open Scope string_scope.
Local Open Scope Z_scope.
Set Warnings "-register-all".

(** ** Exceptions *)

(** The exceptions the endpoints can raise.  [HTTPException] is FastAPI's;
    [ValidationError] is pydantic's, with the model and the fields that
    failed; [InvalidId] is the object-id library's; the others are Python's
    built-in ones. *)
Inductive exn :=
| HTTPException (status_code : Z) (detail : string)
| ValidationError (model : string) (fields : list string)
| ValueError
| TypeError
| OverflowError
| KeyError
| InvalidId.

Inductive result (A : Type) :=
| Ok (a : A)
| Raise (e : exn).
Arguments Ok {A} a.
Arguments Raise {A} e.

Definition rbind {A B} (r : result A) (k : A -> result B) : result B :=
  match r with
  | Ok a => k a
  | Raise e => Raise e
  end.

(** ** Python floats *)

Module Float.

Definition prec : Z := 53.
Definition emax : Z := 1024.

Definition add : spec_float -> spec_float -> spec_float := SFadd prec emax.
Definition mul : spec_float -> spec_float -> spec_float := SFmul prec emax.
Definition div : spec_float -> spec_float -> spec_float := SFdiv prec emax.

(** [x >= y] on floats; false as soon as one side is NaN. *)
Definition ge (x y : spec_float) : bool := SFleb y x.

Definition zero : spec_float := S754_zero false.
Definition one : spec_float := S754_finite false 4503599627370496 (-52).
(** The literal [0.05], that is [0x1.999999999999ap-5]. *)
Definition tax_rate : spec_float := S754_finite false 7205759403792794 (-57).
Definition hundred : spec_float := S754_finite false 7036874417766400 (-46).

(** [float(n)] for a Python int: the nearest double, ties to even;
    an int beyond the largest double raises [OverflowError]. *)
Definition of_int (n : Z) : result spec_float :=
  match binary_normalize prec emax n 0 false with
  | S754_infinity _ => Raise OverflowError
  | f => Ok f
  end.

(** [int(x)] for a float: truncation towards zero. *)
Definition to_int (x : spec_float) : result Z :=
  match x with
  | S754_nan => Raise ValueError
  | S754_infinity _ => Raise OverflowError
  | S754_zero _ => Ok 0
  | S754_finite s m e =>
      let a := match e with
               | Zneg p => Z.shiftr (Zpos m) (Zpos p)
               | _ => Z.shiftl (Zpos m) e
               end in
      Ok (if s then - a else a)
  end.

(** The integer nearest to [n / d], ties to the even one ([0 < d]). *)
Definition div_half_even (n d : Z) : Z :=
  let q := n / d in
  let r := n mod d in
  match 2 * r ?= d with
  | Lt => q
  | Gt => q + 1
  | Eq => if Z.even q then q else q + 1
  end.

(** [round(x, 2)]: NaN, infinities and zeros round to themselves; a finite
    [x] goes to the double nearest to the decimal with two places that is
    nearest to the exact value of [x] (ties to even in both steps). *)
Definition round2 (x : spec_float) : spec_float :=
  match x with
  | S754_finite s m (Zneg p) =>
      match div_half_even (Zpos m * 100) (Z.pow_pos 2 p) with
      | Zpos c => div (S754_finite s c 0) hundred
      | _ => S754_zero s
      end
  | _ => x
  end.

(** [+0.0], a positive finite number or [+inf]. *)
Definition nn (x : spec_float) : bool :=
  match x with
  | S754_zero false | S754_finite false _ _ | S754_infinity false => true
  | _ => false
  end.

End Float.

(** ** Python strings read as numbers *)

(** Strings are ASCII here: [int] and [float] also accept the other Unicode
    digits and spaces, which a [string] of bytes does not represent. *)
Module PyStr.

(** The blanks that [int] and [float] skip around an ASCII literal: tab,
    line feed, vertical tab, form feed, carriage return and space. *)
Definition is_space (c : ascii) : bool :=
  let n := N_of_ascii c in
  ((9 <=? n) && (n <=? 13) || (n =? 32))%N.

(** CPython's default limit on the digits of a decimal int literal
    ([sys.int_info.default_max_str_digits]). *)
Definition max_str_digits : Z := 4300.

Definition digit (c : ascii) : option Z :=
  let n := Z.of_N (N_of_ascii c) in
  if (48 <=? n) && (n <=? 57) then Some (n - 48) else None.

Definition is_digit (c : ascii) : bool :=
  match digit c with Some _ => true | None => false end.

Fixpoint lstrip (l : list ascii) : list ascii :=
  match l with
  | c :: r => if is_space c then lstrip r else l
  | [] => []
  end.

(** The literal without the blanks around it. *)
Definition strip (l : list ascii) : list ascii :=
  rev (lstrip (rev (lstrip l))).

(** Underscores are legal only between two digits; they are dropped. *)
Fixpoint drop_underscores (prev : ascii) (l : list ascii) : option (list ascii) :=
  match l with
  | [] => Some []
  | c :: r =>
      if Ascii.eqb c "_" then
        match r with
        | d :: _ => if is_digit prev && is_digit d then drop_underscores c r else None
        | [] => None
        end
      else option_map (cons c) (drop_underscores c r)
  end.

(** The longest prefix of digits, as a number with its length, and the rest. *)
Fixpoint digits (acc : Z) (len : Z) (l : list ascii) : Z * Z * list ascii :=
  match l with
  | c :: r =>
      match digit c with
      | Some d => digits (10 * acc + d) (len + 1) r
      | None => (acc, len, l)
      end
  | [] => (acc, len, l)
  end.

(** An optional sign: [true] for [-]. *)
Definition sign (l : list ascii) : bool * list ascii :=
  match l with
  | c :: r =>
      if Ascii.eqb c "-" then (true, r)
      else if Ascii.eqb c "+" then (false, r)
      else (false, l)
  | [] => (false, l)
  end.

(** [int(s)] in base 10; a literal of more than [max_str_digits] digits
    is a [ValueError]. *)
Definition to_int (s : string) : result Z :=
  match drop_underscores " " (strip (list_ascii_of_string s)) with
  | None => Raise ValueError
  | Some l =>
      let '(neg, l) := sign l in
      match digits 0 0 l with
      | (n, len, []) =>
          if (0 <? len) && (len <=? max_str_digits)
          then Ok (if neg then - n else n)
          else Raise ValueError
      | _ => Raise ValueError
      end
  end.

Definition lower (c : ascii) : ascii :=
  let n := N_of_ascii c in
  if ((65 <=? n) && (n <=? 90))%N then ascii_of_N (n + 32) else c.

(** The double nearest to [m * 10 ^ e], ties to even. *)
Definition decimal_to_float (neg : bool) (m e : Z) : spec_float :=
  match m, e with
  | Zpos p, Zneg k =>
      Float.div (S754_finite neg p 0) (S754_finite false (Pos.pow 10 k) 0)
  | Zpos p, _ =>
      binary_normalize Float.prec Float.emax ((if neg then - m else m) * 10 ^ e) 0 neg
  | _, _ => S754_zero neg
  end.

(** An optional exponent part; [None] when an [e] is not followed by an
    integer. *)
Definition exponent (l : list ascii) : option (Z * list ascii) :=
  match l with
  | c :: r =>
      if Ascii.eqb (lower c) "e" then
        let '(neg, r) := sign r in
        let '(n, len, r) := digits 0 0 r in
        if 0 <? len then Some (if neg then - n else n, r) else None
      else Some (0, l)
  | [] => Some (0, l)
  end.

(** [float(s)] *)
Definition to_float (s : string) : result spec_float :=
  match drop_underscores " " (strip (list_ascii_of_string s)) with
  | None => Raise ValueError
  | Some l =>
      let '(neg, l) := sign l in
      let name := string_of_list_ascii (map lower l) in
      if String.eqb name "inf" || String.eqb name "infinity" then Ok (S754_infinity neg)
      else if String.eqb name "nan" then Ok S754_nan
      else
        let '(ip, ilen, l) := digits 0 0 l in
        let '(m, flen, l) :=
          match l with
          | c :: r => if Ascii.eqb c "." then digits ip 0 r else (ip, 0, l)
          | [] => (ip, 0, l)
          end in
        if 0 <? ilen + flen then
          match exponent l with
          | Some (e, []) => Ok (decimal_to_float neg m (e - flen))
          | _ => Raise ValueError
          end
        else Raise ValueError
  end.

End PyStr.

(** ** JSON and BSON values *)

(** What a request body or a stored document can hold.  Documents and JSON
    objects are finite maps from field names to values. *)
Inductive value :=
| VNone
| VBool (b : bool)
| VInt (n : Z)
| VFloat (f : spec_float)
| VStr (s : string)
| VObjectId (o : N)
| VList (l : list value)
| VDict (d : gmap string value).

Abbreviation document := (gmap string value).

(** [d.get(key, dflt)] *)
Definition get (d : document) (key : string) (dflt : value) : value :=
  default dflt (d !! key).

(** [d[key]] *)
Definition getitem (d : document) (key : string) : result value :=
  match d !! key with
  | Some v => Ok v
  | None => Raise KeyError
  end.

(** [int(v)] *)
Definition py_int (v : value) : result Z :=
  match v with
  | VInt n => Ok n
  | VBool b => Ok (if b then 1 else 0)
  | VFloat f => Float.to_int f
  | VStr s => PyStr.to_int s
  | _ => Raise TypeError
  end.

(** [float(v)] *)
Definition py_float (v : value) : result spec_float :=
  match v with
  | VFloat f => Ok f
  | VInt n => Float.of_int n
  | VBool b => Ok (if b then Float.one else Float.zero)
  | VStr s => PyStr.to_float s
  | _ => Raise TypeError
  end.

(** ** Object ids *)

(** Modelled from the spec: the identifier type of the store ([bson.ObjectId]
    is not part of the sources).  An id is twelve bytes, read here as a
    number; its string form is 24 hexadecimal digits. *)
Module ObjectId.

Definition hex_digit (c : ascii) : option N :=
  let n := N_of_ascii c in
  (if (48 <=? n) && (n <=? 57) then Some (n - 48)
   else if (97 <=? n) && (n <=? 102) then Some (n - 87)
   else if (65 <=? n) && (n <=? 70) then Some (n - 55)
   else None)%N.

Fixpoint of_hex (acc : N) (l : list ascii) : option N :=
  match l with
  | [] => Some acc
  | c :: r =>
      match hex_digit c with
      | Some d => of_hex (16 * acc + d)%N r
      | None => None
      end
  end.

Definition of_str (s : string) : option N :=
  if (String.length s =? 24)%nat then of_hex 0 (list_ascii_of_string s) else None.

Definition hex_char (d : N) : ascii :=
  ascii_of_N (if d <? 10 then d + 48 else d + 87)%N.

Fixpoint to_hex (len : nat) (o : N) (acc : list ascii) : list ascii :=
  match len with
  | O => acc
  | S len => to_hex len (o / 16)%N (hex_char (o mod 16)%N :: acc)
  end.

(** [str(oid)] *)
Definition to_str (o : N) : string := string_of_list_ascii (to_hex 24 o []).

(** [ObjectId(v)]: [None] asks for a newly generated id, a string is
    parsed, anything else is a type error. *)
Definition make (fresh : N) (v : value) : result N :=
  match v with
  | VNone => Ok fresh
  | VObjectId o => Ok o
  | VStr s =>
      match of_str s with
      | Some o => Ok o
      | None => Raise InvalidId
      end
  | _ => Raise TypeError
  end.

End ObjectId.

(** [str(v)], as far as [create_order] can reach it: by then [object_id]
    has rejected everything but [None], strings and object ids (lemma
    [object_id_printable]). *)
Definition py_str (v : value) : string :=
  match v with
  | VNone => "None"
  | VBool b => if b then "True" else "False"
  | VInt n => pretty n
  | VStr s => s
  | VObjectId o => ObjectId.to_str o
  | _ => ""
  end.

(** ** The document store *)

(** Modelled from the spec: the persistence collaborator ([database.py] and
    the driver behind [db] are not part of the sources).  A database maps a
    collection name to its documents in insertion order; a collection that
    was never written is empty.  A filter is a conjunction of conditions on
    fields, and conditions compare scalars. *)
Module Store.

Abbreviation collection := (list document).
Abbreviation database := (gmap string (list document)).

Definition coll (d : database) (name : string) : collection :=
  default [] (d !! name).

Definition value_eqb (a b : value) : bool :=
  match a, b with
  | VNone, VNone => true
  | VBool x, VBool y => Bool.eqb x y
  | VInt x, VInt y => Z.eqb x y
  | VStr x, VStr y => String.eqb x y
  | VObjectId x, VObjectId y => N.eqb x y
  | _, _ => false
  end.

Inductive cond :=
| Eq (v : value)
| In (vs : list value).

Definition holds (c : cond) (v : option value) : bool :=
  match v, c with
  | Some x, Eq a => value_eqb a x
  | Some x, In vs => existsb (fun a => value_eqb a x) vs
  | None, _ => false
  end.

Definition matches (flt : list (string * cond)) (doc : document) : bool :=
  forallb (fun '(k, c) => holds c (doc !! k)) flt.

Definition find_one (flt : list (string * cond)) (c : collection) : option document :=
  List.find (matches flt) c.

Definition count_documents (flt : list (string * cond)) (c : collection) : nat :=
  length (List.filter (matches flt) c).

(** [update_one(flt, {"$set": patch})]: the first match gets the fields
    of the patch; the result carries [matched_count]. *)
Fixpoint update_one (flt : list (string * cond)) (patch : document) (c : collection)
  : collection * nat :=
  match c with
  | [] => ([], 0%nat)
  | doc :: rest =>
      if matches flt doc then ((patch ∪ doc) :: rest, 1%nat)
      else let '(rest', n) := update_one flt patch rest in (doc :: rest', n)
  end.

(** [delete_one(flt)]: the first match goes; the result carries
    [deleted_count]. *)
Fixpoint delete_one (flt : list (string * cond)) (c : collection) : collection * nat :=
  match c with
  | [] => ([], 0%nat)
  | doc :: rest =>
      if matches flt doc then (rest, 1%nat)
      else let '(rest', n) := delete_one flt rest in (doc :: rest', n)
  end.

Definition doc_id (doc : document) : N :=
  match doc !! "_id" with
  | Some (VObjectId o) => o
  | _ => 0%N
  end.

(** An id that no document of the database carries. *)
Definition generate (d : database) : N :=
  N.succ (map_fold (fun _ c acc => fold_right (fun doc m => N.max (doc_id doc) m) acc c) 0%N d).

(** [insert_one(doc)]: the store assigns the id. *)
Definition insert_one (name : string) (doc : document) (d : database) : database * N :=
  let o := generate d in
  (<[name := (coll d name ++ [<["_id" := VObjectId o]> doc])%list]> d, o).

End Store.

(** ** The endpoint monad *)

(** The state is the global [db]: [None] when the store could not be
    initialised.  A computation returns a value or raises, and in both cases
    hands on the state it leaves behind. *)
Definition M (A : Type) : Type :=
  option Store.database -> result A * option Store.database.

Definition ret {A} (a : A) : M A := fun s => (Ok a, s).

Definition raise {A} (e : exn) : M A := fun s => (Raise e, s).

Definition bind {A B} (m : M A) (k : A -> M B) : M B :=
  fun s =>
    match m s with
    | (Ok a, s') => k a s'
    | (Raise e, s') => (Raise e, s')
    end.

Definition lift {A} (r : result A) : M A := fun s => (r, s).

Notation "x <- m ;; k" := (bind m (fun x => k))
  (at level 100, m at next level, right associativity).

(** [if db is None: raise HTTPException(500, ...)], then the handle. *)
Definition require_db : M Store.database :=
  fun s =>
    match s with
    | None => (Raise (HTTPException 500 "Database not available"), s)
    | Some d => (Ok d, s)
    end.

(** [try: ... except Exception: raise HTTPException(400, "Invalid id")] *)
Definition object_id (id_str : value) : M N :=
  fun s =>
    let fresh := match s with Some d => Store.generate d | None => 1%N end in
    match ObjectId.make fresh id_str with
    | Ok o => (Ok o, s)
    | Raise _ => (Raise (HTTPException 400 "Invalid id"), s)
    end.

(** [db[name].find_one(flt)]; subscripting [None] is a [TypeError]. *)
Definition db_find_one (name : string) (flt : list (string * Store.cond))
  : M (option document) :=
  fun s =>
    match s with
    | Some d => (Ok (Store.find_one flt (Store.coll d name)), s)
    | None => (Raise TypeError, s)
    end.

(** [db[name].count_documents(flt)] *)
Definition db_count_documents (name : string) (flt : list (string * Store.cond)) : M nat :=
  fun s =>
    match s with
    | Some d => (Ok (Store.count_documents flt (Store.coll d name)), s)
    | None => (Raise TypeError, s)
    end.

(** [db[name].update_one(flt, {"$set": patch}).matched_count]; without a
    match nothing is written. *)
Definition db_update_one (name : string) (flt : list (string * Store.cond))
  (patch : document) : M nat :=
  fun s =>
    match s with
    | Some d =>
        match Store.update_one flt patch (Store.coll d name) with
        | (_, O) => (Ok O, s)
        | (c, n) => (Ok n, Some (<[name := c]> d))
        end
    | None => (Raise TypeError, s)
    end.

(** [db[name].delete_one(flt).deleted_count]; without a match nothing is
    written. *)
Definition db_delete_one (name : string) (flt : list (string * Store.cond)) : M nat :=
  fun s =>
    match s with
    | Some d =>
        match Store.delete_one flt (Store.coll d name) with
        | (_, O) => (Ok O, s)
        | (c, n) => (Ok n, Some (<[name := c]> d))
        end
    | None => (Raise TypeError, s)
    end.

(** Modelled from the spec: [create_document] of [database.py], the
    collaborator's [insert(collection, document) -> id]; the id comes back
    in its string form. *)
Definition create_document (name : string) (data : document) : M string :=
  fun s =>
    match s with
    | Some d =>
        let '(d', o) := Store.insert_one name data d in
        (Ok (ObjectId.to_str o), Some d')
    | None => (Raise (HTTPException 500 "Database not available"), s)
    end.

(** Modelled from the spec: [get_documents] of [database.py], the
    collaborator's [find_many] with the empty filter. *)
Definition get_documents (name : string) : M (list document) :=
  fun s =>
    match s with
    | Some d => (Ok (Store.coll d name), s)
    | None => (Raise (HTTPException 500 "Database not available"), s)
    end.

(** ** The schemas of [schemas.py] *)

(** [Field(..., ge=0)] on a float. *)
Definition ge0 (x : spec_float) : bool := Float.ge x Float.zero.

(** The names of the fields whose check failed, in declaration order. *)
Definition failed (checks : list (string * bool)) : list string :=
  map fst (List.filter (fun c => negb (snd c)) checks).

Definition validated {A} (model : string) (checks : list (string * bool)) (a : A)
  : result A :=
  match failed checks with
  | [] => Ok a
  | fields => Raise (ValidationError model fields)
  end.

Definition opt_str (o : option string) : value :=
  match o with
  | Some s => VStr s
  | None => VNone
  end.

Module Menuitem.

Record t := {
  name : string;
  category : string;
  price : spec_float;
  is_available : bool;
  description : option string
}.

Definition model_dump (m : t) : document :=
  <["name" := VStr (name m)]>
  (<["category" := VStr (category m)]>
  (<["price" := VFloat (price m)]>
  (<["is_available" := VBool (is_available m)]>
  (<["description" := opt_str (description m)]> ∅)))).

End Menuitem.

Module Orderitem.

Record t := {
  menu_item_id : string;
  name : string;
  price : spec_float;
  quantity : Z;
  line_total : spec_float
}.

(** [Orderitem(menu_item_id=..., name=..., price=..., quantity=...,
    line_total=...)]: [name] must be a string, [price >= 0],
    [quantity >= 1], [line_total >= 0]. *)
Definition make (menu_item_id : string) (name : value) (price : spec_float)
  (quantity : Z) (line_total : spec_float) : result t :=
  let checks :=
    [("name", match name with VStr _ => true | _ => false end);
     ("price", ge0 price);
     ("quantity", 1 <=? quantity);
     ("line_total", ge0 line_total)] in
  validated "Orderitem" checks
    {| menu_item_id := menu_item_id;
       name := match name with VStr s => s | _ => "" end;
       price := price;
       quantity := quantity;
       line_total := line_total |}.

Definition model_dump (i : t) : value :=
  VDict
    (<["menu_item_id" := VStr (menu_item_id i)]>
    (<["name" := VStr (name i)]>
    (<["price" := VFloat (price i)]>
    (<["quantity" := VInt (quantity i)]>
    (<["line_total" := VFloat (line_total i)]> ∅))))).

End Orderitem.

Module Order.

Record t := {
  customer_name : string;
  table_number : option string;
  items : list Orderitem.t;
  subtotal : spec_float;
  tax : spec_float;
  total : spec_float;
  status : string
}.

(** [Order(customer_name=..., table_number=..., items=..., subtotal=...,
    tax=..., total=...)]: the three amounts must be [>= 0]; [status]
    takes its default. *)
Definition make (customer_name : string) (table_number : option string)
  (items : list Orderitem.t) (subtotal tax total : spec_float) : result t :=
  let checks :=
    [("subtotal", ge0 subtotal); ("tax", ge0 tax); ("total", ge0 total)] in
  validated "Order" checks
    {| customer_name := customer_name;
       table_number := table_number;
       items := items;
       subtotal := subtotal;
       tax := tax;
       total := total;
       status := "pending" |}.

Definition model_dump (o : t) : document :=
  <["customer_name" := VStr (customer_name o)]>
  (<["table_number" := opt_str (table_number o)]>
  (<["items" := VList (map Orderitem.model_dump (items o))]>
  (<["subtotal" := VFloat (subtotal o)]>
  (<["tax" := VFloat (tax o)]>
  (<["total" := VFloat (total o)]>
  (<["status" := VStr (status o)]> ∅)))))).

End Order.

(** ** The endpoints of [main.py] *)

(** The request body of [create_order]. *)
Module CreateOrder.

Record t := {
  customer_name : string;
  table_number : option string;
  items : list document
}.

End CreateOrder.

(** What [create_order] returns. *)
Record OrderCreated := {
  id : string;
  subtotal : spec_float;
  tax : spec_float;
  total : spec_float
}.

(** What [metrics] returns. *)
Record Metrics := {
  total_menu : nat;
  active_orders : nat;
  completed_orders : nat
}.

Definition add_menu_item (item : Menuitem.t) : M string :=
  create_document "menuitem" (Menuitem.model_dump item).

(** [it["_id"] = str(it["_id"])] on each document handed out. *)
Definition stringify_id (doc : document) : result document :=
  rbind (getitem doc "_id") (fun v => Ok (<["_id" := VStr (py_str v)]> doc)).

Fixpoint stringify_ids (docs : list document) : result (list document) :=
  match docs with
  | [] => Ok []
  | doc :: rest =>
      rbind (stringify_id doc) (fun doc' =>
      rbind (stringify_ids rest) (fun rest' => Ok (doc' :: rest')))
  end.

Definition list_menu : M (list document) :=
  items <- get_documents "menuitem" ;;
  lift (stringify_ids items).

Definition update_menu_item (item_id : string) (payload : document) : M bool :=
  _ <- require_db ;;
  o <- object_id (VStr item_id) ;;
  matched_count <- db_update_one "menuitem" [("_id", Store.Eq (VObjectId o))] payload ;;
  if (matched_count =? 0)%nat
  then raise (HTTPException 404 "Item not found")
  else ret true.

Definition delete_menu_item (item_id : string) : M bool :=
  _ <- require_db ;;
  o <- object_id (VStr item_id) ;;
  deleted_count <- db_delete_one "menuitem" [("_id", Store.Eq (VObjectId o))] ;;
  if (deleted_count =? 0)%nat
  then raise (HTTPException 404 "Item not found")
  else ret true.

(** [f"Menu item {mid} unavailable"] *)
Definition unavailable (mid : value) : string :=
  "Menu item " ++ py_str mid ++ " unavailable".

(** The body of the loop of [create_order] up to the new order line; the
    caller adds [line_total] to the running subtotal.  A document that
    [find_one] returns has an ["_id"], so [not doc] holds only for [None]. *)
Definition price_line (i : document) : M Orderitem.t :=
  let mid := get i "menu_item_id" VNone in
  qty <- lift (py_int (get i "quantity" (VInt 1))) ;;
  o <- object_id mid ;;
  found <- db_find_one "menuitem"
             [("_id", Store.Eq (VObjectId o)); ("is_available", Store.Eq (VBool true))] ;;
  match found with
  | None => raise (HTTPException 400 (unavailable mid))
  | Some doc =>
      price <- lift (py_float (get doc "price" (VInt 0))) ;;
      let name := get doc "name" VNone in
      qf <- lift (Float.of_int qty) ;;
      let line_total := Float.mul price qf in
      doc_id <- lift (getitem doc "_id") ;;
      lift (Orderitem.make (py_str doc_id) name price qty line_total)
  end.

(** [for i in payload.items: ...] with the two accumulators of the loop. *)
Fixpoint price_lines (items : list document) (order_items : list Orderitem.t)
  (subtotal : spec_float) : M (list Orderitem.t * spec_float) :=
  match items with
  | [] => ret (order_items, subtotal)
  | i :: rest =>
      it <- price_line i ;;
      price_lines rest (order_items ++ [it])%list
        (Float.add subtotal (Orderitem.line_total it))
  end.

Definition create_order (payload : CreateOrder.t) : M OrderCreated :=
  _ <- require_db ;;
  priced <- price_lines (CreateOrder.items payload) [] Float.zero ;;
  let order_items := fst priced in
  let subtotal := snd priced in
  let tax := Float.round2 (Float.mul subtotal Float.tax_rate) in
  let total := Float.round2 (Float.add subtotal tax) in
  order_doc <- lift (Order.make (CreateOrder.customer_name payload)
                       (CreateOrder.table_number payload) order_items
                       (Float.round2 subtotal) tax total) ;;
  order_id <- create_document "order" (Order.model_dump order_doc) ;;
  ret {| id := order_id;
         subtotal := Order.subtotal order_doc;
         tax := Order.tax order_doc;
         total := Order.total order_doc |}.

Definition list_orders : M (list document) :=
  orders <- get_documents "order" ;;
  lift (stringify_ids orders).

Definition statuses : list string :=
  ["pending"; "preparing"; "ready"; "completed"; "cancelled"].

(** [v in l] for a list of strings: only an equal string is in it. *)
Definition py_in (v : value) (l : list string) : bool :=
  match v with
  | VStr s => existsb (String.eqb s) l
  | _ => false
  end.

Definition update_order_status (order_id : string) (payload : document) : M bool :=
  _ <- require_db ;;
  let status := get payload "status" VNone in
  if negb (py_in status statuses)
  then raise (HTTPException 400 "Invalid status")
  else
    o <- object_id (VStr order_id) ;;
    matched_count <- db_update_one "order" [("_id", Store.Eq (VObjectId o))]
                       {["status" := status]} ;;
    if (matched_count =? 0)%nat
    then raise (HTTPException 404 "Order not found")
    else ret true.

Definition metrics : M Metrics :=
  _ <- require_db ;;
  total_menu <- db_count_documents "menuitem" [] ;;
  pending_orders <- db_count_documents "order"
                      [("status", Store.In [VStr "pending"; VStr "preparing"])] ;;
  completed_today <- db_count_documents "order" [("status", Store.Eq (VStr "completed"))] ;;
  ret {| total_menu := total_menu;
         active_orders := pending_orders;
         completed_orders := completed_today |}.

(** ** A small canteen *)

(** The catalog of the running example: tea at 10.00, on the menu, and cake
    at 5.00, off the menu. *)
Module Scenario.

Definition ten : spec_float := S754_finite false 5629499534213120 (-49).
Definition five : spec_float := S754_finite false 5629499534213120 (-50).

Definition tea : Menuitem.t :=
  {| Menuitem.name := "Tea"; Menuitem.category := "Beverages";
     Menuitem.price := ten; Menuitem.is_available := true;
     Menuitem.description := None |}.

Definition cake : Menuitem.t :=
  {| Menuitem.name := "Cake"; Menuitem.category := "Snacks";
     Menuitem.price := five; Menuitem.is_available := false;
     Menuitem.description := None |}.

Definition tea_id : string := "000000000000000000000001".
Definition cake_id : string := "000000000000000000000002".
Definition order_id : string := "000000000000000000000003".

(** The store after [add_menu_item(tea)] and [add_menu_item(cake)]. *)
Definition catalog : Store.database :=
  Eval vm_compute in
    default ∅ (snd (add_menu_item cake (snd (add_menu_item tea (Some ∅))))).

Definition line (menu_item_id : string) (quantity : value) : document :=
  <["menu_item_id" := VStr menu_item_id]> (<["quantity" := quantity]> ∅).

Definition request (customer_name : string) (items : list document) : CreateOrder.t :=
  {| CreateOrder.customer_name := customer_name;
     CreateOrder.table_number := None;
     CreateOrder.items := items |}.

(** The store after an order of two teas. *)
Definition with_order : Store.database :=
  Eval vm_compute in
    default ∅ (snd (create_order (request "Ann" [line tea_id (VInt 2)]) (Some catalog))).


End Scenario.

(** * The vocabulary of the properties *)

(** One of the five status strings. *)
Definition enumerated (v : value) : Prop :=
  exists s, v = VStr s /\ List.In s statuses.

Definition invalid_status : exn := HTTPException 400 "Invalid status".
Definition invalid_id : exn := HTTPException 400 "Invalid id".
Definition order_not_found : exn := HTTPException 404 "Order not found".

Definition by_id (o : N) : list (string * Store.cond) :=
  [("_id", Store.Eq (VObjectId o))].

(** The filter of the lookup in [create_order]. *)
Definition available_filter (o : N) : list (string * Store.cond) :=
  [("_id", Store.Eq (VObjectId o)); ("is_available", Store.Eq (VBool true))].

(** The menu item an id resolves to, if it is on the menu. *)
Definition available (d : Store.database) (o : N) : option document :=
  Store.find_one (available_filter o) (Store.coll d "menuitem").

(** What the loop body computes against the store [d]: reading never
    changes the store. *)
Definition priced (d : Store.database) (i : document) : result Orderitem.t :=
  fst (price_line i (Some d)).

(** A requested line [i] is priced as the order line [it]: its id is an
    object id that resolves to a menu item on the menu, its quantity
    coerces to an int, the stored price to a float, the product is taken
    in floating point, and the order line passes its schema. *)
Definition line_valid (d : Store.database) (i : document) (it : Orderitem.t) : Prop :=
  exists o doc qf,
    ObjectId.make (Store.generate d) (get i "menu_item_id" VNone) = Ok o /\
    available d o = Some doc /\
    py_int (get i "quantity" (VInt 1)) = Ok (Orderitem.quantity it) /\
    py_float (get doc "price" (VInt 0)) = Ok (Orderitem.price it) /\
    Float.of_int (Orderitem.quantity it) = Ok qf /\
    Orderitem.line_total it = Float.mul (Orderitem.price it) qf /\
    doc !! "name" = Some (VStr (Orderitem.name it)) /\
    Orderitem.menu_item_id it = ObjectId.to_str o /\
    1 <= Orderitem.quantity it /\
    ge0 (Orderitem.price it) = true /\
    ge0 (Orderitem.line_total it) = true.

(** The floating-point sum of the loop: from [start], left to right. *)
Definition float_sum (start : spec_float) (l : list spec_float) : spec_float :=
  fold_left Float.add l start.

Definition line_totals (its : list Orderitem.t) : list spec_float :=
  map Orderitem.line_total its.

(** The loop against the store [d], as a pure function. *)
Fixpoint priced_lines (d : Store.database) (items : list document)
  (order_items : list Orderitem.t) (subtotal : spec_float)
  : result (list Orderitem.t * spec_float) :=
  match items with
  | [] => Ok (order_items, subtotal)
  | i :: rest =>
      rbind (priced d i) (fun it =>
        priced_lines d rest (order_items ++ [it])%list
          (Float.add subtotal (Orderitem.line_total it)))
  end.

(** The order that [create_order] builds from its priced lines. *)
Definition build_order (payload : CreateOrder.t) (its : list Orderitem.t) : Order.t :=
  let subtotal := float_sum Float.zero (line_totals its) in
  let tax := Float.round2 (Float.mul subtotal Float.tax_rate) in
  {| Order.customer_name := CreateOrder.customer_name payload;
     Order.table_number := CreateOrder.table_number payload;
     Order.items := its;
     Order.subtotal := Float.round2 subtotal;
     Order.tax := tax;
     Order.total := Float.round2 (Float.add subtotal tax);
     Order.status := "pending" |}.

(** The store after the order [o] is inserted. *)
Definition persist (o : Order.t) (d : Store.database) : Store.database :=
  <["order" := (Store.coll d "order" ++
                [<["_id" := VObjectId (Store.generate d)]> (Order.model_dump o)])%list]> d.

Definition created (o : Order.t) (d : Store.database) : OrderCreated :=
  {| id := ObjectId.to_str (Store.generate d);
     subtotal := Order.subtotal o;
     tax := Order.tax o;
     total := Order.total o |}.

Definition with_name (payload : CreateOrder.t) (customer_name : string) : CreateOrder.t :=
  {| CreateOrder.customer_name := customer_name;
     CreateOrder.table_number := CreateOrder.table_number payload;
     CreateOrder.items := CreateOrder.items payload |}.


(** The id of a requested line is an object id that finds a menu item on
    the menu. *)
Definition resolves (d : Store.database) (i : document) : Prop :=
  exists o doc,
    ObjectId.make (Store.generate d) (get i "menu_item_id" VNone) = Ok o /\
    available d o = Some doc.

(** A call of one of the endpoints. *)
Inductive call :=
| AddMenuItem (item : Menuitem.t)
| ListMenu
| UpdateMenuItem (item_id : string) (payload : document)
| DeleteMenuItem (item_id : string)
| PostOrder (payload : CreateOrder.t)
| ListOrders
| UpdateOrderStatus (order_id : string) (payload : document)
| GetMetrics.

(** The store after the call, whether it returned or raised. *)
Definition handle (r : call) (s : option Store.database) : option Store.database :=
  match r with
  | AddMenuItem item => snd (add_menu_item item s)
  | ListMenu => snd (list_menu s)
  | UpdateMenuItem item_id payload => snd (update_menu_item item_id payload s)
  | DeleteMenuItem item_id => snd (delete_menu_item item_id s)
  | PostOrder payload => snd (create_order payload s)
  | ListOrders => snd (list_orders s)
  | UpdateOrderStatus order_id payload => snd (update_order_status order_id payload s)
  | GetMetrics => snd (metrics s)
  end.

(** The documents of a collection in a state of the server. *)
Definition colls (s : option Store.database) (name : string) : list document :=
  match s with
  | Some d => Store.coll d name
  | None => []
  end.

(** [doc'] is [doc] in every field but [status]. *)
Definition same_but_status (doc doc' : document) : Prop :=
  forall k, k <> "status" -> doc' !! k = doc !! k.

(** [s'] is [s], or [s] with the collection [name] rewritten. *)
Definition writes_only (name : string) (s s' : option Store.database) : Prop :=
  s' = s \/ exists d c, s = Some d /\ s' = Some (<[name := c]> d).

(** The status of a document is one of the strings [ss]. *)
Definition has_status (ss : list string) (doc : document) : Prop :=
  exists s, List.In s ss /\ doc !! "status" = Some (VStr s).

#[local] Instance has_status_dec ss doc : Decision (has_status ss doc).
Proof.
  unfold has_status.
  destruct (doc !! "status") as [v|]; [|right; intros (s & _ & H); discriminate H].
  destruct v as [| | | |s0| | |];
    try (right; intros (s & _ & H); discriminate H).
  destruct (in_dec String.string_dec s0 ss) as [Hin|Hout].
  - left. exists s0. split; [exact Hin|reflexivity].
  - right. intros (s & Hs & H). injection H as ->. exact (Hout Hs).
Defined.

(** The counts of a store, as the spec words them. *)
Definition counts (d : Store.database) : Metrics :=
  {| total_menu := length (Store.coll d "menuitem");
     active_orders :=
       length (filter (has_status ["pending"; "preparing"]) (Store.coll d "order"));
     completed_orders :=
       length (filter (has_status ["completed"]) (Store.coll d "order")) |}.

(** ** More vocabulary: the catalog and the store *)

Definition item_not_found : exn := HTTPException 404 "Item not found".

(** The document carries the object id [o]. *)
Definition has_id (o : N) (doc : document) : Prop :=
  doc !! "_id" = Some (VObjectId o).

(** The document carries some object id. *)
Definition has_object_id (doc : document) : Prop :=
  exists o, has_id o doc.

(** The stored form of a menu item under the id [o]. *)
Definition stored_item (o : N) (item : Menuitem.t) : document :=
  <["_id" := VObjectId o]> (Menuitem.model_dump item).

(** The listed form of a stored document: the id as a string. *)
Definition listed (doc : document) : document :=
  <["_id" := VStr (py_str (get doc "_id" VNone))]> doc.

(** Every stored document carries an object id, and within a collection no
    two documents carry the same one. *)
Definition store_wf (d : Store.database) : Prop :=
  forall name c,
    d !! name = Some c ->
    Forall has_object_id c /\ NoDup (map Store.doc_id c).

(** The call tries to overwrite the [_id] of a menu item. *)
Definition sets_id (r : call) : Prop :=
  match r with
  | UpdateMenuItem _ payload => payload !! "_id" <> None
  | _ => False
  end.

(** The store a sequence of calls leaves behind, from the first to the
    last. *)
Definition handle_all (rs : list call) (s : option Store.database) : option Store.database :=
  fold_left (fun s r => handle r s) rs s.

(** ** More vocabulary: orders and their status *)

(** One if the status of the document is one of [ss], zero otherwise: what
    the document adds to a count of [metrics]. *)
Definition tally (ss : list string) (doc : document) : nat :=
  if decide (has_status ss doc) then 1%nat else 0%nat.

(** The same for a status that is about to be written. *)
Definition tally_of (ss : list string) (s : string) : nat :=
  if in_dec String.string_dec s ss then 1%nat else 0%nat.

(** ** More vocabulary: payloads the store takes as they are *)

Definition plain_char (c : ascii) : bool :=
  let n := N_of_ascii c in
  ((48 <=? n) && (n <=? 57) || (65 <=? n) && (n <=? 90) ||
   (97 <=? n) && (n <=? 122) || (n =? 95))%N.

(** A field name of letters, digits and underscores, other than [_id]:
    no path into a document and no operator. *)
Definition plain_field (k : string) : Prop :=
  k <> "" /\ k <> "_id" /\ forallb plain_char (list_ascii_of_string k) = true.

(** A null, a boolean, an int of eight bytes, a float or a string. *)
Definition scalar (v : value) : Prop :=
  match v with
  | VNone | VBool _ | VFloat _ | VStr _ => True
  | VInt n => - 2 ^ 63 <= n < 2 ^ 63
  | _ => False
  end.

(** A payload of [update_menu_item] that sets some plain fields to
    scalars. *)
Definition plain_payload (payload : document) : Prop :=
  payload <> ∅ /\
  forall k v, payload !! k = Some v -> plain_field k /\ scalar v.

(** ** More vocabulary: the errors of [create_order] *)




(** * Properties *)

(** ** Floats that carry no sign and are not NaN *)

Module FloatFacts.

Lemma shr_1_nonneg mrs : 0 <= shr_m mrs -> 0 <= shr_m (shr_1 mrs).
Proof.
  destruct mrs as [m r s]; simpl.
  destruct m as [|[p|p|]|[p|p|]]; simpl; lia.
Qed.

Lemma iter_shr_1_nonneg p : forall mrs,
  0 <= shr_m mrs -> 0 <= shr_m (SpecFloat.iter_pos shr_1 p mrs).
Proof.
  induction p as [p IH|p IH|]; intros mrs H; simpl.
  - apply IH, IH, shr_1_nonneg, H.
  - apply IH, IH, H.
  - apply shr_1_nonneg, H.
Qed.

Lemma shr_nonneg mrs e n : 0 <= shr_m mrs -> 0 <= shr_m (fst (shr mrs e n)).
Proof.
  intros H. destruct n; simpl; auto using iter_shr_1_nonneg.
Qed.

Lemma shr_fexp_nonneg pr em m e l :
  0 <= m -> 0 <= shr_m (fst (shr_fexp pr em m e l)).
Proof.
  intros H. unfold shr_fexp. apply shr_nonneg.
  destruct l as [|[]]; simpl; exact H.
Qed.

Lemma round_nearest_even_nonneg m l : 0 <= m -> 0 <= round_nearest_even m l.
Proof.
  intros H. unfold round_nearest_even.
  destruct l as [|[]]; try destruct (Z.even m); lia.
Qed.

(** Rounding a non-negative mantissa with a positive sign gives a float
    with a positive sign, never NaN. *)
Lemma binary_round_aux_nn pr em m e l :
  0 <= m -> Float.nn (binary_round_aux pr em false m e l) = true.
Proof.
  intros H. unfold binary_round_aux.
  pose proof (shr_fexp_nonneg pr em m e l H) as H1.
  destruct (shr_fexp pr em m e l) as [mrs' e']. simpl in H1.
  pose proof (shr_fexp_nonneg pr em _ e' loc_Exact
                (round_nearest_even_nonneg _ (loc_of_shr_record mrs') H1)) as H2.
  destruct (shr_fexp pr em _ e' loc_Exact) as [mrs'' e'']. simpl in H2.
  destruct (shr_m mrs'') as [|q|q]; [reflexivity| |lia].
  destruct (e'' <=? em - pr); reflexivity.
Qed.

Lemma binary_round_nn pr em m e : Float.nn (binary_round pr em false m e) = true.
Proof.
  unfold binary_round.
  destruct (shl_align m e _) as [mz ez].
  apply binary_round_aux_nn. lia.
Qed.

Lemma nn_ge0 x : Float.nn x = true -> ge0 x = true.
Proof. destruct x as [[]|[]| |[] m e]; simpl; intros H; try discriminate; reflexivity. Qed.

(** Adding a float that passed [ge=0] to an [Float.nn] accumulator. *)
Lemma add_nn a b : Float.nn a = true -> ge0 b = true -> Float.nn (Float.add a b) = true.
Proof.
  destruct a as [[]|[]| |[] ma ea]; simpl; intros Ha; try discriminate;
    destruct b as [[]|[]| |[] mb eb]; intros Hb; try discriminate; try reflexivity.
  unfold Float.add, SFadd, binary_normalize, cond_Zopp.
  destruct (shl_align ma ea _) as [ma' ea'], (shl_align mb eb _) as [mb' eb'].
  simpl. apply binary_round_nn.
Qed.

Lemma mul_nn a b : Float.nn a = true -> Float.nn b = true ->
  (forall s, a = S754_infinity s -> b <> S754_zero false) ->
  (forall s, b = S754_infinity s -> a <> S754_zero false) ->
  Float.nn (Float.mul a b) = true.
Proof.
  destruct a as [[]|[]| |[] ma ea]; simpl; intros Ha; try discriminate;
    destruct b as [[]|[]| |[] mb eb]; intros Hb Hab Hba; try discriminate;
    try reflexivity.
  - exfalso. eapply Hba; reflexivity.
  - exfalso. eapply Hab; reflexivity.
  - apply binary_round_aux_nn. lia.
Qed.

Lemma mul_tax_rate_nn a : Float.nn a = true -> Float.nn (Float.mul a Float.tax_rate) = true.
Proof.
  intros Ha. apply mul_nn; [exact Ha|reflexivity| |]; intros s; discriminate.
Qed.

Lemma div_eucl_nonneg a b : 0 <= a -> 0 < b -> 0 <= fst (Z.div_eucl a b).
Proof.
  intros Ha Hb. change (fst (Z.div_eucl a b)) with (a / b).
  apply Z.div_pos; assumption.
Qed.

Lemma div_nn m1 e1 m2 e2 :
  Float.nn (Float.div (S754_finite false m1 e1) (S754_finite false m2 e2)) = true.
Proof.
  unfold Float.div, SFdiv, SFdiv_core_binary.
  set (s := _ - _ - _).
  set (m' := match s with Z0 => _ | Zpos _ => _ | Zneg _ => _ end).
  assert (Hm : 0 <= m').
  { subst m'. destruct s; try lia. apply Z.shiftl_nonneg. lia. }
  pose proof (div_eucl_nonneg m' (Zpos m2) Hm eq_refl) as Hq.
  destruct (Z.div_eucl m' (Zpos m2)) as [q r]. simpl in Hq.
  apply binary_round_aux_nn, Hq.
Qed.

Lemma round2_nn x : Float.nn x = true -> Float.nn (Float.round2 x) = true.
Proof.
  destruct x as [[]|[]| |[] m e]; simpl; intros H; try discriminate; try reflexivity.
  destruct e as [|p|p]; try reflexivity.
  destruct (Float.div_half_even _ _); try reflexivity.
  apply div_nn.
Qed.



End FloatFacts.

(** ** The store *)

Module StoreFacts.
Import Store.

Lemma update_one_matched flt patch c :
  snd (update_one flt patch c) =
  match find_one flt c with Some _ => 1%nat | None => 0%nat end.
Proof.
  induction c as [|doc rest IH]; simpl; [reflexivity|].
  unfold find_one in *. simpl.
  destruct (matches flt doc); [reflexivity|].
  destruct (update_one flt patch rest) as [rest' n]. exact IH.
Qed.

Lemma update_one_unmatched flt patch c :
  find_one flt c = None -> update_one flt patch c = (c, 0%nat).
Proof.
  induction c as [|doc rest IH]; simpl; [reflexivity|].
  unfold find_one in *. simpl.
  destruct (matches flt doc); [discriminate|].
  intros H. rewrite (IH H). reflexivity.
Qed.

(** [update_one] keeps the number and the order of the documents, changes
    at most the fields of the patch, and only in a document that matches. *)
Lemma update_one_frame flt patch c :
  Forall2 (fun doc doc' =>
             doc' = doc \/ (matches flt doc = true /\ doc' = patch ∪ doc))
          c (fst (update_one flt patch c)).
Proof.
  induction c as [|doc rest IH]; simpl; [constructor|].
  destruct (matches flt doc) eqn:Hm; simpl.
  - constructor; [right; auto|].
    clear. induction rest; constructor; auto.
  - destruct (update_one flt patch rest) as [rest' n]. simpl in *.
    constructor; [left; reflexivity|exact IH].
Qed.

(** After a match the first matching document carries the patch. *)
Lemma update_one_patched flt patch c doc :
  find_one flt c = Some doc ->
  exists l1 l2,
    c = (l1 ++ doc :: l2)%list /\
    fst (update_one flt patch c) = (l1 ++ (patch ∪ doc) :: l2)%list /\
    Forall (fun x => matches flt x = false) l1.
Proof.
  induction c as [|x rest IH]; simpl; [discriminate|].
  unfold find_one in *. simpl.
  destruct (matches flt x) eqn:Hm.
  - intros [= ->]. exists [], rest. simpl. auto.
  - intros H. destruct (IH H) as (l1 & l2 & -> & Hu & Hl1).
    destruct (update_one flt patch _) as [rest' n]. simpl in *. subst rest'.
    exists (x :: l1), l2. simpl. auto.
Qed.

Lemma delete_one_deleted flt c :
  snd (delete_one flt c) =
  match find_one flt c with Some _ => 1%nat | None => 0%nat end.
Proof.
  induction c as [|doc rest IH]; simpl; [reflexivity|].
  unfold find_one in *. simpl.
  destruct (matches flt doc); [reflexivity|].
  destruct (delete_one flt rest) as [rest' n]. exact IH.
Qed.

Lemma coll_insert name name' c (d : database) :
  coll (<[name := c]> d) name' = if decide (name = name') then c else coll d name'.
Proof.
  unfold coll. rewrite lookup_insert. destruct (decide (name = name')); reflexivity.
Qed.

End StoreFacts.

(** ** Status updates *)

Lemma py_in_spec v l :
  py_in v l = true <-> exists s, v = VStr s /\ List.In s l.
Proof.
  split.
  - destruct v; simpl; try discriminate. intros H.
    apply existsb_exists in H. destruct H as (x & Hx & Heq).
    apply String.eqb_eq in Heq. subst x. eauto.
  - intros (s & -> & Hs). simpl. apply existsb_exists.
    exists s. split; [exact Hs|apply String.eqb_refl].
Qed.

Lemma py_in_enumerated v : py_in v statuses = true <-> enumerated v.
Proof. apply py_in_spec. Qed.

Lemma py_in_not_enumerated v : py_in v statuses = false <-> ~ enumerated v.
Proof.
  rewrite <- py_in_enumerated.
  destruct (py_in v statuses); split; intros H; congruence.
Qed.

(** What [update_order_status] does in each of its four cases. *)
Lemma update_order_status_run d order_id payload :
  update_order_status order_id payload (Some d) =
  let status := get payload "status" VNone in
  if py_in status statuses then
    match ObjectId.of_str order_id with
    | None => (Raise invalid_id, Some d)
    | Some o =>
        match Store.find_one (by_id o) (Store.coll d "order") with
        | None => (Raise order_not_found, Some d)
        | Some _ =>
            (Ok true,
             Some (<["order" :=
                      fst (Store.update_one (by_id o) {["status" := status]}
                             (Store.coll d "order"))]> d))
        end
    end
  else (Raise invalid_status, Some d).
Proof.
  unfold update_order_status, bind, require_db, raise, ret, object_id, db_update_one.
  simpl. destruct (py_in _ statuses); simpl; [|reflexivity].
  destruct (ObjectId.of_str order_id) as [o|]; simpl; [|reflexivity].
  fold (by_id o).
  pose proof (StoreFacts.update_one_matched (by_id o)
                {["status" := get payload "status" VNone]} (Store.coll d "order")) as Hn.
  destruct (Store.update_one _ _ _) as [c n]. simpl in Hn. subst n.
  destruct (Store.find_one _ _); reflexivity.
Qed.

(** C9: [update_order_status] looks at the status before it looks at the
    order id.  A status outside the five values fails with "Invalid status"
    whatever the order id is, malformed or unknown included, and leaves the
    store as it was; hence "Order not found" and "Invalid id" can only come
    out when the status is one of the five. *)
Theorem status_checked_before_order_id d order_id payload :
  (~ enumerated (get payload "status" VNone) ->
   update_order_status order_id payload (Some d) = (Raise invalid_status, Some d)) /\
  (forall e s',
     update_order_status order_id payload (Some d) = (Raise e, s') ->
     e = order_not_found \/ e = invalid_id ->
     enumerated (get payload "status" VNone)).
Proof.
  rewrite update_order_status_run. cbv zeta.
  destruct (py_in _ statuses) eqn:Hin.
  - apply py_in_enumerated in Hin. split; [tauto|auto].
  - split; [reflexivity|].
    intros e s' [= <- <-] [H|H]; discriminate H.
Qed.

(** An unknown status with an id that is not even an object id. *)
Lemma status_checked_before_order_id_witness :
  update_order_status "not-an-id" {["status" := VStr "done"]} (Some Scenario.with_order)
  = (Raise invalid_status, Some Scenario.with_order).
Proof.
  apply (proj1 (status_checked_before_order_id Scenario.with_order "not-an-id"
                  {["status" := VStr "done"]})).
  intros (s & H & Hs). vm_compute in H. injection H as <-.
  simpl in Hs. intuition discriminate.
Defined.

(** C7, as the code has it: a status outside the five values fails with
    "Invalid status"; with one of the five, a malformed order id fails with
    "Invalid id", a well-formed id that matches no order fails with
    "Order not found", and an id that matches an order succeeds, writing the
    new status into that order.  Failures leave the store as it was. *)
Theorem update_order_status_outcome d order_id payload :
  let status := get payload "status" VNone in
  let run := update_order_status order_id payload (Some d) in
  (~ enumerated status -> run = (Raise invalid_status, Some d)) /\
  (enumerated status -> ObjectId.of_str order_id = None ->
   run = (Raise invalid_id, Some d)) /\
  (enumerated status -> forall o,
   ObjectId.of_str order_id = Some o ->
   Store.find_one (by_id o) (Store.coll d "order") = None ->
   run = (Raise order_not_found, Some d)) /\
  (enumerated status -> forall o doc,
   ObjectId.of_str order_id = Some o ->
   Store.find_one (by_id o) (Store.coll d "order") = Some doc ->
   exists l1 l2,
     Store.coll d "order" = (l1 ++ doc :: l2)%list /\
     run = (Ok true, Some (<["order" := (l1 ++ <["status" := status]> doc :: l2)%list]> d))).
Proof.
  cbv zeta. rewrite update_order_status_run. cbv zeta.
  destruct (py_in _ statuses) eqn:Hin.
  - apply py_in_enumerated in Hin.
    repeat split; try tauto.
    + intros _ ->. reflexivity.
    + intros _ o -> ->. reflexivity.
    + intros _ o doc -> Hf. rewrite Hf.
      destruct (StoreFacts.update_one_patched _ {["status" := get payload "status" VNone]}
                  _ _ Hf) as (l1 & l2 & Hc & Hu & _).
      exists l1, l2. split; [exact Hc|].
      rewrite Hu, <- (insert_union_singleton_l doc). reflexivity.
  - apply py_in_not_enumerated in Hin. repeat split; tauto.
Qed.

(** Completing the order of two teas. *)
Lemma update_order_status_outcome_witness :
  let doc := default ∅ (head (Store.coll Scenario.with_order "order")) in
  exists l1 l2,
    Store.coll Scenario.with_order "order" = (l1 ++ doc :: l2)%list /\
    update_order_status Scenario.order_id {["status" := VStr "completed"]}
      (Some Scenario.with_order)
    = (Ok true,
       Some (<["order" := (l1 ++ <["status" := VStr "completed"]> doc :: l2)%list]>
               Scenario.with_order)).
Proof.
  exact (proj2 (proj2 (proj2
           (update_order_status_outcome Scenario.with_order Scenario.order_id
              {["status" := VStr "completed"]})))
           (ex_intro _ "completed" (conj eq_refl
              (or_intror (or_intror (or_intror (or_introl eq_refl))))))
           3%N (default ∅ (head (Store.coll Scenario.with_order "order")))
           eq_refl eq_refl).
Defined.

(** C7, counterexample: with a valid status, an order id that is not an
    object id at all resolves to no order, and the failure is
    "Invalid id" (400), not "Order not found" (404). *)
Lemma malformed_order_id_is_invalid_id :
  ObjectId.of_str "not-an-id" = None /\
  update_order_status "not-an-id" {["status" := VStr "ready"]} (Some Scenario.with_order)
  = (Raise (HTTPException 400 "Invalid id"), Some Scenario.with_order).
Proof. split; reflexivity. Qed.

(** ** Pricing one requested line *)

Ltac run_monad :=
  unfold bind, lift, raise, ret, require_db, object_id, db_find_one,
    db_count_documents, create_document, get_documents; simpl.

Lemma price_line_state i s : snd (price_line i s) = s.
Proof.
  unfold price_line. run_monad.
  destruct (py_int _); simpl; [|reflexivity].
  destruct (ObjectId.make _ _); simpl; [|reflexivity].
  destruct s as [d|]; simpl; [|reflexivity].
  destruct (Store.find_one _ _) as [doc|]; simpl; [|reflexivity].
  destruct (py_float _); simpl; [|reflexivity].
  destruct (Float.of_int _); simpl; [|reflexivity].
  destruct (getitem _ _); simpl; reflexivity.
Qed.

Lemma price_line_run i d : price_line i (Some d) = (priced d i, Some d).
Proof.
  unfold priced. rewrite <- (price_line_state i (Some d)) at 3.
  destruct (price_line i (Some d)); reflexivity.
Qed.

Lemma value_eqb_object_id o v : Store.value_eqb (VObjectId o) v = true -> v = VObjectId o.
Proof.
  destruct v; simpl; try discriminate. intros H. apply N.eqb_eq in H. congruence.
Qed.

Lemma value_eqb_bool b v : Store.value_eqb (VBool b) v = true -> v = VBool b.
Proof.
  destruct v; simpl; try discriminate. intros H. apply Bool.eqb_prop in H. congruence.
Qed.

Lemma value_eqb_str s v : Store.value_eqb (VStr s) v = true -> v = VStr s.
Proof.
  destruct v; simpl; try discriminate. intros H. apply String.eqb_eq in H. congruence.
Qed.

(** A document found by id carries that id. *)
Lemma find_one_id flt o c doc :
  Store.find_one (("_id", Store.Eq (VObjectId o)) :: flt) c = Some doc ->
  doc !! "_id" = Some (VObjectId o).
Proof.
  intros H. apply find_some in H. destruct H as [_ H].
  unfold Store.matches in H. simpl in H. apply andb_prop in H. destruct H as [H _].
  destruct (doc !! "_id") as [v|]; [|discriminate].
  apply (value_eqb_object_id o) in H. congruence.
Qed.

Lemma available_is_available d o doc :
  available d o = Some doc ->
  doc !! "_id" = Some (VObjectId o) /\ doc !! "is_available" = Some (VBool true).
Proof.
  intros H. split; [exact (find_one_id _ _ _ _ H)|].
  apply find_some in H. destruct H as [_ H].
  unfold Store.matches in H. simpl in H.
  apply andb_prop in H. destruct H as [_ H].
  apply andb_prop in H. destruct H as [H _].
  destruct (doc !! "is_available") as [v|]; [|discriminate].
  apply (value_eqb_bool true) in H. congruence.
Qed.

Lemma validated_ok {A} model checks (a b : A) :
  validated model checks a = Ok b <-> forallb snd checks = true /\ b = a.
Proof.
  unfold validated, failed.
  induction checks as [|[k c] checks IH]; simpl.
  - split; [intros [= <-]; auto|intros [_ ->]; reflexivity].
  - destruct c; simpl; [exact IH|].
    split; [discriminate|intros [H _]; discriminate].
Qed.

Lemma orderitem_make_ok id name price quantity line_total it :
  Orderitem.make id name price quantity line_total = Ok it <->
  exists s, name = VStr s /\ ge0 price = true /\ 1 <= quantity /\
            ge0 line_total = true /\
            it = {| Orderitem.menu_item_id := id; Orderitem.name := s;
                    Orderitem.price := price; Orderitem.quantity := quantity;
                    Orderitem.line_total := line_total |}.
Proof.
  unfold Orderitem.make. rewrite validated_ok. simpl.
  rewrite !andb_true_iff, Z.leb_le. split.
  - intros [(Hn & Hp & Hq & Hl & _) ->].
    destruct name; try discriminate. eauto 10.
  - intros (s & -> & Hp & Hq & Hl & ->). auto 10.
Qed.

(** The loop body succeeds exactly on the valid lines. *)
Lemma priced_ok d i it : priced d i = Ok it <-> line_valid d i it.
Proof.
  unfold priced, price_line, line_valid. run_monad. fold (available_filter).
  split.
  - destruct (py_int _) as [qty|] eqn:Hq; simpl; [|discriminate].
    destruct (ObjectId.make _ _) as [o|] eqn:Ho; simpl; [|discriminate].
    fold (available_filter o). fold (available d o).
    destruct (available d o) as [doc|] eqn:Hd; simpl; [|discriminate].
    destruct (py_float _) as [price|] eqn:Hp; simpl; [|discriminate].
    destruct (Float.of_int _) as [qf|] eqn:Hf; simpl; [|discriminate].
    destruct (available_is_available _ _ _ Hd) as [Hid _].
    unfold getitem. rewrite Hid. simpl. intros H.
    apply orderitem_make_ok in H.
    destruct H as (s & Hn & Hp0 & Hq1 & Hl & ->). simpl.
    exists o, doc, qf. repeat split; auto.
    unfold get in Hn. destruct (doc !! "name"); simpl in Hn; congruence.
  - intros (o & doc & qf & Ho & Hd & Hq & Hp & Hf & Hl & Hn & Hid & Hq1 & Hp0 & Hl0).
    rewrite Hq. simpl. rewrite Ho. simpl.
    fold (available_filter o). fold (available d o). rewrite Hd. simpl.
    rewrite Hp. simpl. rewrite Hf. simpl.
    destruct (available_is_available _ _ _ Hd) as [Hid' _].
    unfold getitem. rewrite Hid'. simpl.
    apply orderitem_make_ok. exists (Orderitem.name it).
    unfold get. rewrite Hn. simpl. rewrite <- Hl.
    repeat split; auto. destruct it; simpl in *; congruence.
Qed.

(** What [object_id] lets through is [None], a string or an object id:
    the values [py_str] prints exactly. *)
Lemma object_id_printable v s o s' :
  object_id v s = (Ok o, s') ->
  v = VNone \/ (exists x, v = VStr x) \/ (exists x, v = VObjectId x).
Proof.
  unfold object_id. destruct v; simpl; try discriminate; eauto.
Qed.

(** The id that [generate] hands out is larger than every id in the
    store. *)
Lemma generate_fresh (d : Store.database) name c doc :
  d !! name = Some c -> List.In doc c -> (Store.doc_id doc < Store.generate d)%N.
Proof.
  unfold Store.generate.
  set (f := fun (_ : string) (c : list document) (acc : N) =>
              fold_right (fun doc m => N.max (Store.doc_id doc) m) acc c).
  assert (Hf : forall c acc doc,
            (acc <= f ""%string c acc)%N /\
            (List.In doc c -> (Store.doc_id doc <= f ""%string c acc)%N)).
  { induction c0 as [|x c0 IH]; intros acc doc0; simpl.
    - split; [lia|tauto].
    - destruct (IH acc doc0) as [H1 H2]. split; [lia|].
      intros [->|H]; [lia|]. specialize (H2 H). lia. }
  revert name c doc.
  apply (map_fold_weak_ind
           (fun r (m : Store.database) =>
              forall name c doc, m !! name = Some c -> List.In doc c ->
                                 (Store.doc_id doc < N.succ r)%N) f 0%N).
  - intros name c doc H. rewrite lookup_empty in H. discriminate.
  - intros i x m r Hi IH name c doc Hl Hin.
    destruct (decide (i = name)) as [->|Hne].
    + rewrite lookup_insert_eq in Hl. injection Hl as ->.
      destruct (Hf c r doc) as [_ H]. specialize (H Hin).
      change (f name c r) with (f ""%string c r). lia.
    + rewrite lookup_insert_ne in Hl by exact Hne.
      specialize (IH name c doc Hl Hin).
      destruct (Hf x r doc) as [H _].
      change (f i x r) with (f ""%string x r). lia.
Qed.

(** No menu item carries a newly generated id: a line without
    [menu_item_id] finds nothing. *)
Lemma available_generate d : available d (Store.generate d) = None.
Proof.
  destruct (available d (Store.generate d)) as [doc|] eqn:H; [|reflexivity].
  exfalso. unfold available in H.
  pose proof (find_some _ _ H) as [Hin _].
  apply find_one_id in H.
  unfold Store.coll in Hin.
  destruct (d !! "menuitem") as [c|] eqn:Hc; [|destruct Hin].
  pose proof (generate_fresh d "menuitem" c doc Hc Hin) as Hlt.
  unfold Store.doc_id in Hlt. rewrite H in Hlt. lia.
Qed.

(** ** The pricing loop *)

Lemma price_lines_run d items : forall order_items subtotal,
  price_lines items order_items subtotal (Some d)
  = (priced_lines d items order_items subtotal, Some d).
Proof.
  induction items as [|i rest IH]; intros order_items subtotal; simpl.
  - reflexivity.
  - unfold bind. rewrite price_line_run.
    destruct (priced d i) as [it|e]; simpl; [apply IH|reflexivity].
Qed.

Lemma price_lines_no_db items : forall order_items subtotal,
  snd (price_lines items order_items subtotal None) = None.
Proof.
  induction items as [|i rest IH]; intros order_items subtotal; simpl.
  - reflexivity.
  - unfold bind.
    pose proof (price_line_state i None) as H.
    destruct (price_line i None) as [[it|e] s]; simpl in H; subst s; [apply IH|reflexivity].
Qed.

(** The loop succeeds exactly when every line is valid; it then holds the
    order lines in request order and the running floating-point sum. *)
Lemma priced_lines_ok d items : forall order_items subtotal order_items' subtotal',
  priced_lines d items order_items subtotal = Ok (order_items', subtotal') <->
  exists its,
    Forall2 (line_valid d) items its /\
    order_items' = (order_items ++ its)%list /\
    subtotal' = float_sum subtotal (line_totals its).
Proof.
  induction items as [|i rest IH]; intros acc sub acc' sub'; simpl.
  - split.
    + intros [= <- <-]. exists []. rewrite app_nil_r. repeat split. constructor.
    + intros (its & H & -> & ->). inversion H. subst. rewrite app_nil_r. reflexivity.
  - destruct (priced d i) as [it|e] eqn:Hi; simpl.
    + rewrite IH. apply priced_ok in Hi. split.
      * intros (its & H & -> & ->). exists (it :: its).
        rewrite <- app_assoc. repeat split. constructor; assumption.
      * intros (its & H & -> & ->). inversion H as [|? it' ? its' Hv Hrest]; subst.
        apply priced_ok in Hi, Hv. rewrite Hi in Hv. injection Hv as <-.
        exists its'. rewrite <- app_assoc. repeat split. assumption.
    + split; [discriminate|].
      intros (its & H & _). inversion H as [|? it' ? its' Hv Hrest]; subst.
      apply priced_ok in Hv. congruence.
Qed.

(** The loop fails with the exception of the first line that fails. *)
Lemma priced_lines_raise d items : forall order_items subtotal e,
  priced_lines d items order_items subtotal = Raise e <->
  exists l1 i l2 its,
    items = (l1 ++ i :: l2)%list /\
    Forall2 (line_valid d) l1 its /\
    priced d i = Raise e.
Proof.
  induction items as [|i rest IH]; intros acc sub e; simpl.
  - split; [discriminate|].
    intros (l1 & i & l2 & its & H & _). destruct l1; discriminate.
  - destruct (priced d i) as [it|e'] eqn:Hi; simpl.
    + rewrite IH. split.
      * intros (l1 & j & l2 & its & -> & H & Hj).
        exists (i :: l1), j, l2, (it :: its). repeat split; auto.
        constructor; [apply priced_ok|]; assumption.
      * intros (l1 & j & l2 & its & Heq & H & Hj).
        destruct l1 as [|x l1]; simpl in Heq; injection Heq as <- ->.
        -- congruence.
        -- inversion H; subst. eauto 10.
    + split.
      * intros [= <-]. exists [], i, rest, []. repeat split; auto.
      * intros (l1 & j & l2 & its & Heq & H & Hj).
        destruct l1 as [|x l1]; simpl in Heq; injection Heq as <- ->.
        -- congruence.
        -- inversion H as [|? it ? ? Hv ?]; subst. apply priced_ok in Hv. congruence.
Qed.

(** The running subtotal keeps a positive sign and is never NaN. *)
Lemma float_sum_nn its : forall start,
  Float.nn start = true ->
  Forall (fun it => ge0 (Orderitem.line_total it) = true) its ->
  Float.nn (float_sum start (line_totals its)) = true.
Proof.
  induction its as [|it its IH]; intros start Hs H; simpl; [exact Hs|].
  inversion H; subst. apply IH; [apply FloatFacts.add_nn|]; assumption.
Qed.

Lemma line_valid_ge0 d items its :
  Forall2 (line_valid d) items its ->
  Forall (fun it => ge0 (Orderitem.line_total it) = true) its.
Proof.
  induction 1 as [|i it items its Hv _ IH]; constructor; [|exact IH].
  destruct Hv as (o & doc & qf & H). tauto.
Qed.

(** ** Creating an order *)

(** The amounts of an order built from valid lines pass the checks of the
    [Order] schema. *)
Lemma order_make_valid payload its :
  Forall (fun it => ge0 (Orderitem.line_total it) = true) its ->
  let o := build_order payload its in
  Order.make (Order.customer_name o) (Order.table_number o) its
    (Order.subtotal o) (Order.tax o) (Order.total o) = Ok o.
Proof.
  intros H o. apply validated_ok. split; [|reflexivity].
  pose proof (float_sum_nn its Float.zero eq_refl H) as Hs.
  pose proof (FloatFacts.round2_nn _ (FloatFacts.mul_tax_rate_nn _ Hs)) as Ht.
  simpl. rewrite !andb_true_iff. repeat split.
  - apply FloatFacts.nn_ge0, FloatFacts.round2_nn, Hs.
  - apply FloatFacts.nn_ge0, Ht.
  - apply FloatFacts.nn_ge0, FloatFacts.round2_nn, FloatFacts.add_nn;
      [exact Hs|apply FloatFacts.nn_ge0, Ht].
Qed.

(** [create_order] against an available store, case by case. *)
Lemma create_order_run d payload :
  create_order payload (Some d) =
  match priced_lines d (CreateOrder.items payload) [] Float.zero with
  | Raise e => (Raise e, Some d)
  | Ok (its, _) =>
      let o := build_order payload its in
      (Ok (created o d), Some (persist o d))
  end.
Proof.
  unfold create_order. unfold bind at 1. unfold require_db.
  unfold bind at 1. rewrite price_lines_run.
  destruct (priced_lines d _ [] Float.zero) as [[its sub]|e] eqn:Hl; [|reflexivity].
  apply priced_lines_ok in Hl. destruct Hl as (its' & Hv & Heq & ->).
  simpl in Heq. subst its'. simpl fst. simpl snd.
  pose proof (order_make_valid payload its (line_valid_ge0 _ _ _ Hv)) as Hm.
  cbv zeta in Hm. simpl in Hm.
  unfold bind, lift. rewrite Hm. reflexivity.
Qed.

(** C1: the amounts of a created order.  When every requested line is
    valid (it references a menu item on the menu and passes the checks of
    the loop), [create_order] succeeds, and with [sum] the floating-point
    sum of [price * quantity] over the lines, taken left to right from
    [0.0] with no rounding on the way, it returns and persists
    [subtotal = round(sum, 2)], [tax = round(sum * 0.05, 2)] from the
    unrounded sum, and [total = round(sum + tax, 2)].  Conversely
    [create_order] succeeds only on such requests. *)
Theorem create_order_amounts d payload :
  (forall its,
     Forall2 (line_valid d) (CreateOrder.items payload) its ->
     let sum := float_sum Float.zero (line_totals its) in
     let tax := Float.round2 (Float.mul sum Float.tax_rate) in
     let total := Float.round2 (Float.add sum tax) in
     Forall (fun it => exists qf,
               Float.of_int (Orderitem.quantity it) = Ok qf /\
               Orderitem.line_total it = Float.mul (Orderitem.price it) qf) its /\
     exists doc,
       create_order payload (Some d)
       = (Ok {| id := ObjectId.to_str (Store.generate d);
                subtotal := Float.round2 sum; tax := tax; total := total |},
          Some (<["order" := (Store.coll d "order" ++ [doc])%list]> d)) /\
       doc !! "items" = Some (VList (map Orderitem.model_dump its)) /\
       doc !! "subtotal" = Some (VFloat (Float.round2 sum)) /\
       doc !! "tax" = Some (VFloat tax) /\
       doc !! "total" = Some (VFloat total) /\
       doc !! "status" = Some (VStr "pending")) /\
  (forall r s',
     create_order payload (Some d) = (Ok r, s') ->
     exists its, Forall2 (line_valid d) (CreateOrder.items payload) its).
Proof.
  rewrite create_order_run. split.
  - intros its Hv. cbv zeta. split.
    + clear -Hv. induction Hv as [|i it items its Hi _ IH]; constructor; [|exact IH].
      destruct Hi as (o & doc & qf & H). exists qf. tauto.
    + assert (Hl : priced_lines d (CreateOrder.items payload) [] Float.zero
                   = Ok (its, float_sum Float.zero (line_totals its))).
      { apply priced_lines_ok. exists its. auto. }
      rewrite Hl. cbv zeta.
      exists (<["_id" := VObjectId (Store.generate d)]>
                (Order.model_dump (build_order payload its))).
      split; [reflexivity|].
      repeat split; reflexivity.
  - intros r s'.
    destruct (priced_lines d _ [] Float.zero) as [[its sub]|e] eqn:Hl; [|discriminate].
    intros _. apply priced_lines_ok in Hl. destruct Hl as (its' & Hv & _). eauto.
Qed.

(** Two teas at 10.00: subtotal 20.00, tax 1.00, total 21.00. *)
Lemma create_order_amounts_witness :
  fst (create_order (Scenario.request "Ann" [Scenario.line Scenario.tea_id (VInt 2)])
         (Some Scenario.catalog))
  = Ok {| id := Scenario.order_id;
          subtotal := S754_finite false 5629499534213120 (-48);
          tax := Float.one;
          total := S754_finite false 5910974510923776 (-48) |}.
Proof.
  pose (it := {| Orderitem.menu_item_id := Scenario.tea_id;
                 Orderitem.name := "Tea";
                 Orderitem.price := Scenario.ten;
                 Orderitem.quantity := 2;
                 Orderitem.line_total := S754_finite false 5629499534213120 (-48) |}).
  assert (Hv : Forall2 (line_valid Scenario.catalog)
                 [Scenario.line Scenario.tea_id (VInt 2)] [it]).
  { constructor; [|constructor]. apply priced_ok. vm_compute. reflexivity. }
  destruct (proj1 (create_order_amounts Scenario.catalog
                     (Scenario.request "Ann" [Scenario.line Scenario.tea_id (VInt 2)]))
              [it] Hv) as (_ & doc & Hrun & _).
  rewrite Hrun. vm_compute. reflexivity.
Defined.

(** C4, counterexample: an order with no lines is created and persisted. *)
Lemma empty_order_is_persisted :
  exists r doc,
    create_order (Scenario.request "Ann" []) (Some Scenario.catalog)
    = (Ok r, Some (<["order" := [doc]]> Scenario.catalog)) /\
    doc !! "items" = Some (VList []).
Proof.
  eexists _, _. split; [vm_compute; reflexivity|]. vm_compute. reflexivity.
Qed.

(** C4, as the code has it: a request with no lines succeeds; the order
    that is persisted has no lines, amounts [0.0] and status [pending]. *)
Theorem create_order_empty d payload :
  CreateOrder.items payload = [] ->
  exists doc,
    create_order payload (Some d)
    = (Ok {| id := ObjectId.to_str (Store.generate d);
             subtotal := Float.zero; tax := Float.zero; total := Float.zero |},
       Some (<["order" := (Store.coll d "order" ++ [doc])%list]> d)) /\
    doc !! "items" = Some (VList []) /\
    doc !! "subtotal" = Some (VFloat Float.zero) /\
    doc !! "tax" = Some (VFloat Float.zero) /\
    doc !! "total" = Some (VFloat Float.zero) /\
    doc !! "status" = Some (VStr "pending").
Proof.
  intros Hitems. rewrite create_order_run, Hitems. simpl.
  eexists. split; [reflexivity|]. repeat split; reflexivity.
Qed.

(** The empty order against the catalog. *)
Lemma create_order_empty_witness :
  exists doc,
    create_order (Scenario.request "Ann" []) (Some Scenario.catalog)
    = (Ok {| id := ObjectId.to_str (Store.generate Scenario.catalog);
             subtotal := Float.zero; tax := Float.zero; total := Float.zero |},
       Some (<["order" := (Store.coll Scenario.catalog "order" ++ [doc])%list]>
               Scenario.catalog)) /\
    doc !! "items" = Some (VList []) /\
    doc !! "subtotal" = Some (VFloat Float.zero) /\
    doc !! "tax" = Some (VFloat Float.zero) /\
    doc !! "total" = Some (VFloat Float.zero) /\
    doc !! "status" = Some (VStr "pending").
Proof.
  exact (create_order_empty Scenario.catalog (Scenario.request "Ann" []) eq_refl).
Defined.

Lemma create_order_no_db payload :
  create_order payload None = (Raise (HTTPException 500 "Database not available"), None).
Proof. reflexivity. Qed.

(** C5, counterexample: an order for the empty customer name is created,
    and the name is stored as it came. *)
Lemma empty_customer_name_is_accepted :
  exists r doc,
    create_order (Scenario.request "" [Scenario.line Scenario.tea_id (VInt 2)])
      (Some Scenario.catalog)
    = (Ok r, Some (<["order" := [doc]]> Scenario.catalog)) /\
    doc !! "customer_name" = Some (VStr "").
Proof.
  eexists _, _. split; [vm_compute; reflexivity|]. vm_compute. reflexivity.
Qed.

(** C5, as the code has it: [create_order] does not look at the customer
    name.  Whether a request succeeds, what it returns and which exception
    it raises are the same for every name, the empty one included, and an
    order that is persisted stores the name it was given. *)
Theorem customer_name_not_validated s payload name :
  fst (create_order (with_name payload name) s) = fst (create_order payload s) /\
  (forall r s',
     create_order (with_name payload name) s = (Ok r, s') ->
     exists d doc,
       s = Some d /\
       s' = Some (<["order" := (Store.coll d "order" ++ [doc])%list]> d) /\
       doc !! "customer_name" = Some (VStr name)).
Proof.
  destruct s as [d|]; [|split; [reflexivity|discriminate]].
  rewrite !create_order_run. simpl.
  destruct (priced_lines d _ [] Float.zero) as [[its sub]|e]; simpl.
  - split; [reflexivity|].
    intros r s' [= <- <-]. eexists d, _. split; [reflexivity|].
    split; [reflexivity|]. reflexivity.
  - split; [reflexivity|discriminate].
Qed.

(** ** Failing lines *)

Lemma line_valid_resolves d i it : line_valid d i it -> resolves d i.
Proof. intros (o & doc & qf & Ho & Hd & _). exists o, doc. auto. Qed.

Lemma Forall2_In_l {A B} (R : A -> B -> Prop) l1 l2 x :
  Forall2 R l1 l2 -> List.In x l1 -> exists y, R x y.
Proof.
  induction 1 as [|a b l1 l2 Hab _ IH]; simpl; [tauto|].
  intros [<-|H]; eauto.
Qed.

(** A failure of [create_order] leaves the store as it was. *)
Lemma create_order_failure_state payload s e s' :
  create_order payload s = (Raise e, s') -> s' = s.
Proof.
  destruct s as [d|]; [|rewrite create_order_no_db; congruence].
  rewrite create_order_run.
  destruct (priced_lines d _ [] Float.zero) as [[its sub]|e']; [discriminate|congruence].
Qed.

(** A request with a line that cannot be priced fails. *)
Lemma create_order_bad_line d payload i :
  List.In i (CreateOrder.items payload) ->
  (forall it, ~ line_valid d i it) ->
  exists e, create_order payload (Some d) = (Raise e, Some d).
Proof.
  intros Hin Hbad. rewrite create_order_run.
  destruct (priced_lines d _ [] Float.zero) as [[its sub]|e] eqn:Hl; [|eauto].
  apply priced_lines_ok in Hl. destruct Hl as (its' & Hv & _).
  destruct (Forall2_In_l _ _ _ _ Hv Hin) as (it & Hit).
  destruct (Hbad it Hit).
Qed.

(** The exception of the first line that fails is the one of the request. *)
Lemma create_order_first_failure d payload l1 i l2 its e :
  CreateOrder.items payload = (l1 ++ i :: l2)%list ->
  Forall2 (line_valid d) l1 its ->
  priced d i = Raise e ->
  create_order payload (Some d) = (Raise e, Some d).
Proof.
  intros Hitems Hv Hi. rewrite create_order_run.
  assert (H : priced_lines d (CreateOrder.items payload) [] Float.zero = Raise e).
  { apply priced_lines_raise. eauto 10. }
  rewrite H. reflexivity.
Qed.

(** C2, counterexample: the second line references the cake, which is off
    the menu, but the request fails on the quantity of its first line: the
    exception names no menu item. *)
Lemma unavailable_line_not_named :
  available Scenario.catalog 2 = None /\
  create_order
    (Scenario.request "Ann"
       [Scenario.line Scenario.tea_id (VInt 0); Scenario.line Scenario.cake_id (VInt 1)])
    (Some Scenario.catalog)
  = (Raise (ValidationError "Orderitem" ["quantity"]), Some Scenario.catalog).
Proof. split; vm_compute; reflexivity. Qed.

(** C2, as the code has it: order creation is all or nothing.  Whenever
    [create_order] fails the store is as it was, and it fails for every
    request with a line whose id does not resolve to a menu item on the
    menu.  Lines are priced in order and the first failure decides the
    exception: when the lines before are valid and the line's quantity
    coerces to an int, a well-formed id that finds no menu item on the menu
    fails with "Menu item <id> unavailable", naming that id, and a
    malformed id fails with "Invalid id". *)
Theorem create_order_all_or_nothing d payload :
  (forall e s', create_order payload (Some d) = (Raise e, s') -> s' = Some d) /\
  (forall i,
     List.In i (CreateOrder.items payload) -> ~ resolves d i ->
     exists e, create_order payload (Some d) = (Raise e, Some d)) /\
  (forall l1 i l2 its mid o q,
     CreateOrder.items payload = (l1 ++ i :: l2)%list ->
     Forall2 (line_valid d) l1 its ->
     i !! "menu_item_id" = Some (VStr mid) ->
     py_int (get i "quantity" (VInt 1)) = Ok q ->
     ObjectId.of_str mid = Some o ->
     available d o = None ->
     create_order payload (Some d)
     = (Raise (HTTPException 400 ("Menu item " ++ mid ++ " unavailable")), Some d)) /\
  (forall l1 i l2 its mid q,
     CreateOrder.items payload = (l1 ++ i :: l2)%list ->
     Forall2 (line_valid d) l1 its ->
     i !! "menu_item_id" = Some (VStr mid) ->
     py_int (get i "quantity" (VInt 1)) = Ok q ->
     ObjectId.of_str mid = None ->
     create_order payload (Some d) = (Raise invalid_id, Some d)).
Proof.
  split; [|split; [|split]].
  4:{ intros l1 i l2 its mid q Hitems Hv Hmid Hq Ho.
      apply (create_order_first_failure d payload l1 i l2 its _ Hitems Hv).
      unfold priced, price_line. run_monad.
      rewrite Hq. simpl. unfold get at 1. rewrite Hmid. simpl. rewrite Ho.
      reflexivity. }
  - intros e s'. apply create_order_failure_state.
  - intros i Hin Hbad. apply (create_order_bad_line d payload i Hin).
    intros it Hit. apply Hbad. exact (line_valid_resolves _ _ _ Hit).
  - intros l1 i l2 its mid o q Hitems Hv Hmid Hq Ho Hd.
    apply (create_order_first_failure d payload l1 i l2 its _ Hitems Hv).
    unfold priced, price_line. run_monad.
    rewrite Hq. simpl. unfold get at 1. rewrite Hmid. simpl. rewrite Ho. simpl.
    fold (available_filter o). fold (available d o). rewrite Hd. simpl.
    unfold unavailable, get. rewrite Hmid. reflexivity.
Qed.

(** A tea and a cake: the cake is off the menu and is named. *)
Lemma create_order_all_or_nothing_witness :
  create_order
    (Scenario.request "Ann"
       [Scenario.line Scenario.tea_id (VInt 1); Scenario.line Scenario.cake_id (VInt 1)])
    (Some Scenario.catalog)
  = (Raise (HTTPException 400 "Menu item 000000000000000000000002 unavailable"),
     Some Scenario.catalog).
Proof.
  refine (proj1 (proj2 (proj2 (create_order_all_or_nothing Scenario.catalog
                          (Scenario.request "Ann"
                             [Scenario.line Scenario.tea_id (VInt 1);
                              Scenario.line Scenario.cake_id (VInt 1)]))))
            [Scenario.line Scenario.tea_id (VInt 1)] (Scenario.line Scenario.cake_id (VInt 1)) []
            [{| Orderitem.menu_item_id := Scenario.tea_id; Orderitem.name := "Tea";
                Orderitem.price := Scenario.ten; Orderitem.quantity := 1;
                Orderitem.line_total := Scenario.ten |}]
            Scenario.cake_id 2%N 1 eq_refl _ eq_refl eq_refl eq_refl eq_refl).
  constructor; [|constructor]. apply priced_ok. vm_compute. reflexivity.
Defined.

(** ** Quantities *)

Lemma orderitem_make_quantity id name price q line_total :
  q < 1 ->
  exists fields,
    List.In "quantity" fields /\
    Orderitem.make id name price q line_total = Raise (ValidationError "Orderitem" fields).
Proof.
  intros Hq. unfold Orderitem.make, validated, failed. simpl.
  assert (Hb : (1 <=? q) = false) by (apply Z.leb_gt; lia). rewrite Hb.
  destruct (match name with VStr _ => true | _ => false end), (ge0 price), (ge0 line_total);
    simpl; eexists; (split; [|reflexivity]); simpl; tauto.
Qed.

(** C6, counterexample: the quantity of the only line coerces to an int
    below one, but the request fails in the product [price * qty], where
    the quantity is too large in magnitude for a float: an [OverflowError],
    raised before the order line is validated. *)
Lemma quantity_below_one_overflow :
  py_int (get (Scenario.line Scenario.tea_id (VInt (- 10 ^ 400))) "quantity" (VInt 1))
  = Ok (- 10 ^ 400) /\
  (- 10 ^ 400 <? 1) = true /\
  create_order
    (Scenario.request "Ann" [Scenario.line Scenario.tea_id (VInt (- 10 ^ 400))])
    (Some Scenario.catalog)
  = (Raise OverflowError, Some Scenario.catalog).
Proof. repeat split; vm_compute; reflexivity. Qed.

(** C6, as the code has it: the quantity of a line is [int(...)] of the
    field, and 1 when the field is missing.  A request with a line whose
    coerced quantity is below one fails and leaves the store as it was.
    Lines are priced in order and the first failure decides the exception:
    when the lines before are valid and the line itself resolves to a menu
    item on the menu whose price converts, the failure is the validation
    error of the order line, with [quantity] among its fields. *)
Theorem quantity_below_one_rejected d payload :
  (forall i, i !! "quantity" = None -> py_int (get i "quantity" (VInt 1)) = Ok 1) /\
  (forall i q,
     List.In i (CreateOrder.items payload) ->
     py_int (get i "quantity" (VInt 1)) = Ok q -> q < 1 ->
     exists e, create_order payload (Some d) = (Raise e, Some d)) /\
  (forall l1 i l2 its q o doc price qf,
     CreateOrder.items payload = (l1 ++ i :: l2)%list ->
     Forall2 (line_valid d) l1 its ->
     py_int (get i "quantity" (VInt 1)) = Ok q -> q < 1 ->
     ObjectId.make (Store.generate d) (get i "menu_item_id" VNone) = Ok o ->
     available d o = Some doc ->
     py_float (get doc "price" (VInt 0)) = Ok price ->
     Float.of_int q = Ok qf ->
     exists fields,
       List.In "quantity" fields /\
       create_order payload (Some d)
       = (Raise (ValidationError "Orderitem" fields), Some d)).
Proof.
  split; [|split].
  - intros i Hi. unfold get. rewrite Hi. reflexivity.
  - intros i q Hin Hq Hlt. apply (create_order_bad_line d payload i Hin).
    intros it (o & doc & qf & _ & _ & Hq' & _ & _ & _ & _ & _ & Hge & _).
    rewrite Hq in Hq'. injection Hq' as ->. lia.
  - intros l1 i l2 its q o doc price qf Hitems Hv Hq Hlt Ho Hd Hp Hf.
    destruct (available_is_available _ _ _ Hd) as [Hid _].
    destruct (orderitem_make_quantity (ObjectId.to_str o) (get doc "name" VNone)
                price q (Float.mul price qf) Hlt) as (fields & Hin & Hmake).
    exists fields. split; [exact Hin|].
    apply (create_order_first_failure d payload l1 i l2 its _ Hitems Hv).
    unfold priced, price_line. run_monad.
    rewrite Hq. simpl. rewrite Ho. simpl.
    fold (available_filter o). fold (available d o). rewrite Hd. simpl.
    rewrite Hp. simpl. rewrite Hf. simpl.
    unfold getitem. rewrite Hid. simpl. exact Hmake.
Qed.

(** A tea, then no tea at all: the second line fails its schema. *)
Lemma quantity_below_one_rejected_witness :
  exists fields,
    List.In "quantity" fields /\
    create_order
      (Scenario.request "Ann"
         [Scenario.line Scenario.tea_id (VInt 1); Scenario.line Scenario.tea_id (VInt 0)])
      (Some Scenario.catalog)
    = (Raise (ValidationError "Orderitem" fields), Some Scenario.catalog).
Proof.
  refine (proj2 (proj2 (quantity_below_one_rejected Scenario.catalog
                          (Scenario.request "Ann"
                             [Scenario.line Scenario.tea_id (VInt 1);
                              Scenario.line Scenario.tea_id (VInt 0)])))
            [Scenario.line Scenario.tea_id (VInt 1)] (Scenario.line Scenario.tea_id (VInt 0)) []
            [{| Orderitem.menu_item_id := Scenario.tea_id; Orderitem.name := "Tea";
                Orderitem.price := Scenario.ten; Orderitem.quantity := 1;
                Orderitem.line_total := Scenario.ten |}]
            0 1%N (default ∅ (head (Store.coll Scenario.catalog "menuitem")))
            Scenario.ten Float.zero eq_refl _ eq_refl eq_refl eq_refl eq_refl eq_refl eq_refl).
  constructor; [|constructor]. apply priced_ok. vm_compute. reflexivity.
Defined.

(** ** A menu item without a price *)

Lemma line_valid_unique d i it it' : line_valid d i it -> line_valid d i it' -> it = it'.
Proof. intros H H'. apply priced_ok in H, H'. congruence. Qed.





(** ** What the endpoints write *)

Lemma writes_only_frame name s s' name' :
  writes_only name s s' -> name' <> name -> colls s' name' = colls s name'.
Proof.
  intros [->|(d & c & -> & ->)] Hne; [reflexivity|].
  simpl. rewrite StoreFacts.coll_insert.
  destruct (decide (name = name')); congruence.
Qed.

Lemma add_menu_item_writes item s : writes_only "menuitem" s (snd (add_menu_item item s)).
Proof.
  destruct s as [d|]; [|left; reflexivity].
  right. eexists d, _. split; reflexivity.
Qed.

Lemma update_menu_item_writes item_id payload s :
  writes_only "menuitem" s (snd (update_menu_item item_id payload s)).
Proof.
  destruct s as [d|]; [|left; reflexivity].
  unfold update_menu_item, db_update_one. run_monad.
  destruct (ObjectId.of_str item_id) as [o|]; simpl; [|left; reflexivity].
  destruct (Store.update_one _ payload (Store.coll d "menuitem")) as [c [|n]]; simpl.
  - left; reflexivity.
  - right. eexists d, _. split; reflexivity.
Qed.

Lemma delete_menu_item_writes item_id s :
  writes_only "menuitem" s (snd (delete_menu_item item_id s)).
Proof.
  destruct s as [d|]; [|left; reflexivity].
  unfold delete_menu_item, db_delete_one. run_monad.
  destruct (ObjectId.of_str item_id) as [o|]; simpl; [|left; reflexivity].
  destruct (Store.delete_one _ (Store.coll d "menuitem")) as [c [|n]]; simpl.
  - left; reflexivity.
  - right. eexists d, _. split; reflexivity.
Qed.

Lemma list_state name s :
  snd ((docs <- get_documents name ;; lift (stringify_ids docs)) s) = s.
Proof. destruct s as [d|]; reflexivity. Qed.

Lemma metrics_state s : snd (metrics s) = s.
Proof. destruct s as [d|]; reflexivity. Qed.

Lemma same_but_status_refl l : Forall2 same_but_status l l.
Proof. induction l; constructor; auto. intros k _. reflexivity. Qed.

Lemma matches_by_id o doc :
  Store.matches (by_id o) doc = true -> doc !! "_id" = Some (VObjectId o).
Proof.
  unfold Store.matches. simpl. intros H. apply andb_prop in H. destruct H as [H _].
  destruct (doc !! "_id") as [v|]; [|discriminate].
  apply (value_eqb_object_id o) in H. congruence.
Qed.

(** What a status update does to the orders: the targeted order gets the
    new status, every other document stays. *)
Lemma update_order_status_orders order_id payload s :
  writes_only "order" s (snd (update_order_status order_id payload s)) /\
  Forall2 (fun doc doc' =>
             doc' = doc \/
             exists o, ObjectId.of_str order_id = Some o /\
                       doc !! "_id" = Some (VObjectId o) /\
                       doc' = <["status" := get payload "status" VNone]> doc)
          (colls s "order") (colls (snd (update_order_status order_id payload s)) "order").
Proof.
  assert (Hrefl : forall l : list document,
            Forall2 (fun doc doc' =>
               doc' = doc \/
               exists o, ObjectId.of_str order_id = Some o /\
                         doc !! "_id" = Some (VObjectId o) /\
                         doc' = <["status" := get payload "status" VNone]> doc) l l).
  { induction l; constructor; auto. }
  destruct s as [d|]; [|split; [left; reflexivity|constructor]].
  rewrite update_order_status_run. cbv zeta.
  destruct (py_in _ statuses); [|split; [left; reflexivity|apply Hrefl]].
  destruct (ObjectId.of_str order_id) as [o|] eqn:Ho;
    [|split; [left; reflexivity|apply Hrefl]].
  destruct (Store.find_one _ _); [|split; [left; reflexivity|apply Hrefl]].
  split; [right; eexists d, _; split; reflexivity|].
  simpl. rewrite StoreFacts.coll_insert. simpl.
  eapply Forall2_impl; [apply StoreFacts.update_one_frame|].
  intros doc doc' [->|[Hm ->]]; [left; reflexivity|right].
  exists o. split; [reflexivity|]. split; [exact (matches_by_id _ _ Hm)|].
  symmetry. apply insert_union_singleton_l.
Qed.

(** C3: no endpoint changes the contents of an order once it is created.
    After any call the orders that were there are still there, in the same
    order and equal in every field but [status] (so [items] with the
    snapshotted prices, [subtotal], [tax] and [total] are as they were),
    possibly followed by a new order.  [update_menu_item] writes to the
    [menuitem] collection only, and [update_order_status] writes to the
    [order] collection only, where it sets the [status] field of the order
    with the given id and nothing else. *)
Theorem order_contents_frame r s :
  (exists old new,
     colls (handle r s) "order" = (old ++ new)%list /\
     Forall2 same_but_status (colls s "order") old) /\
  (forall item_id payload name,
     r = UpdateMenuItem item_id payload -> name <> "menuitem" ->
     colls (handle r s) name = colls s name) /\
  (forall order_id payload,
     r = UpdateOrderStatus order_id payload ->
     (forall name, name <> "order" -> colls (handle r s) name = colls s name) /\
     Forall2 (fun doc doc' =>
                doc' = doc \/
                exists o, ObjectId.of_str order_id = Some o /\
                          doc !! "_id" = Some (VObjectId o) /\
                          doc' = <["status" := get payload "status" VNone]> doc)
             (colls s "order") (colls (handle r s) "order")).
Proof.
  assert (Hmenu : forall s', writes_only "menuitem" s s' ->
            exists old new, colls s' "order" = (old ++ new)%list /\
                            Forall2 same_but_status (colls s "order") old).
  { intros s' Hw. exists (colls s "order"), [].
    rewrite app_nil_r, (writes_only_frame _ _ _ "order" Hw) by discriminate.
    split; [reflexivity|apply same_but_status_refl]. }
  assert (Hsame : forall s', s' = s ->
            exists old new, colls s' "order" = (old ++ new)%list /\
                            Forall2 same_but_status (colls s "order") old).
  { intros s' ->. apply Hmenu. left; reflexivity. }
  split; [|split].
  - destruct r; simpl.
    + apply Hmenu, add_menu_item_writes.
    + apply Hsame, list_state.
    + apply Hmenu, update_menu_item_writes.
    + apply Hmenu, delete_menu_item_writes.
    + destruct s as [d|]; [|apply Hsame; reflexivity].
      rewrite create_order_run.
      destruct (priced_lines d _ [] Float.zero) as [[its sub]|e];
        [|apply Hsame; reflexivity].
      simpl. unfold persist. rewrite StoreFacts.coll_insert. simpl.
      eexists _, _. split; [reflexivity|apply same_but_status_refl].
    + apply Hsame, list_state.
    + destruct (update_order_status_orders order_id payload s) as [_ H].
      exists (colls (snd (update_order_status order_id payload s)) "order"), [].
      rewrite app_nil_r. split; [reflexivity|].
      eapply Forall2_impl; [exact H|].
      intros doc doc' [->|(o & _ & _ & ->)] k Hk; [reflexivity|].
      apply lookup_insert_ne. congruence.
    + apply Hsame, metrics_state.
  - intros item_id payload name -> Hne. simpl.
    apply writes_only_frame with (name := "menuitem");
      [apply update_menu_item_writes|exact Hne].
  - intros order_id payload ->. simpl.
    destruct (update_order_status_orders order_id payload s) as [Hw H].
    split; [|exact H].
    intros name Hne. apply writes_only_frame with (name := "order"); assumption.
Qed.

(** ** Metrics *)

Lemma holds_in_status ss doc :
  Store.holds (Store.In (map VStr ss)) (doc !! "status") = true <-> has_status ss doc.
Proof.
  unfold has_status. destruct (doc !! "status") as [v|]; simpl.
  - rewrite existsb_exists. split.
    + intros (a & Ha & Heq). apply in_map_iff in Ha. destruct Ha as (s & <- & Hs).
      apply (value_eqb_str s) in Heq. subst v. eauto.
    + intros (s & Hs & [= ->]). exists (VStr s). split.
      * apply in_map. exact Hs.
      * simpl. apply String.eqb_refl.
  - split; [discriminate|]. intros (s & _ & H). discriminate.
Qed.

Lemma holds_eq_status s doc :
  Store.holds (Store.Eq (VStr s)) (doc !! "status") = true <-> has_status [s] doc.
Proof.
  unfold has_status. destruct (doc !! "status") as [v|]; simpl.
  - split.
    + intros Heq. apply (value_eqb_str s) in Heq. subst v. eauto.
    + intros (s' & [<-|[]] & [= ->]). simpl. apply String.eqb_refl.
  - split; [discriminate|]. intros (s' & _ & H). discriminate.
Qed.

Lemma length_filter_dec {A} (f : A -> bool) (P : A -> Prop) `{forall x, Decision (P x)}
  (l : list A) :
  (forall x, f x = true <-> P x) ->
  length (List.filter f l) = length (filter P l).
Proof.
  intros Hf. induction l as [|x l IH]; [reflexivity|].
  simpl. rewrite filter_cons.
  destruct (decide (P x)) as [Hp|Hp].
  - apply Hf in Hp. rewrite Hp. simpl. rewrite IH. reflexivity.
  - destruct (f x) eqn:Hx; [apply Hf in Hx; contradiction|exact IH].
Qed.

(** C8: [metrics] returns the number of menu items, the number of orders
    whose status is [pending] or [preparing], and the number of orders whose
    status is [completed], counted in the store as it is at the call: it
    keeps nothing between calls and writes nothing, so after any other call
    it answers for the store that call left behind. *)
Theorem metrics_counts d :
  metrics (Some d) = (Ok (counts d), Some d) /\
  (forall r d', handle r (Some d) = Some d' ->
     metrics (handle r (Some d)) = (Ok (counts d'), Some d')).
Proof.
  assert (H : forall d0, metrics (Some d0) = (Ok (counts d0), Some d0)).
  { intros d0. unfold metrics, counts. run_monad. unfold Store.count_documents.
    assert (H1 : forall l : list document,
              length (List.filter (Store.matches []) l) = length l).
    { induction l as [|x l IH]; simpl; congruence. }
    rewrite H1.
    rewrite (length_filter_dec _ (has_status ["pending"; "preparing"])).
    2:{ intros doc. unfold Store.matches. simpl. rewrite andb_true_r.
        apply (holds_in_status ["pending"; "preparing"]). }
    rewrite (length_filter_dec _ (has_status ["completed"])).
    2:{ intros doc. unfold Store.matches. simpl. rewrite andb_true_r.
        apply (holds_eq_status "completed"). }
    reflexivity. }
  split; [apply H|]. intros r d' ->. apply H.
Qed.

(** * Further properties of the endpoints *)

(** Closes an equation between closed terms by evaluating both sides. *)
Ltac vm_refl :=
  lazymatch goal with
  | |- _ = ?rhs => vm_cast_no_check (eq_refl rhs)
  | |- (_ < _)%N => vm_cast_no_check (eq_refl Lt)
  end.

(** ** Object ids as strings *)

Module ObjectIdFacts.
Import ObjectId.

Lemma hex_digit_char d : (d < 16)%N -> hex_digit (hex_char d) = Some d.
Proof.
  intros H.
  assert (Hd : List.In d (map N.of_nat (seq 0 16))).
  { apply in_map_iff. exists (N.to_nat d). split; [lia|]. apply in_seq. lia. }
  simpl in Hd.
  repeat (destruct Hd as [<-|Hd]; [reflexivity|]). destruct Hd.
Qed.

Lemma length_to_hex len : forall o acc,
  length (to_hex len o acc) = (len + length acc)%nat.
Proof.
  induction len as [|len IH]; intros o acc; simpl; [reflexivity|].
  rewrite IH. simpl. lia.
Qed.

Lemma of_hex_to_hex len : forall o a acc,
  (o < 16 ^ N.of_nat len)%N ->
  of_hex a (to_hex len o acc) = of_hex (a * 16 ^ N.of_nat len + o)%N acc.
Proof.
  induction len as [|len IH]; intros o a acc Ho.
  - simpl in *. f_equal. lia.
  - rewrite Nat2N.inj_succ, N.pow_succ_r' in Ho. simpl to_hex.
    rewrite IH by (apply N.Div0.div_lt_upper_bound; lia).
    simpl of_hex. rewrite hex_digit_char by (apply N.mod_lt; lia).
    f_equal. rewrite Nat2N.inj_succ, N.pow_succ_r'.
    pose proof (N.div_mod o 16). lia.
Qed.

Lemma length_string_of_list l : String.length (string_of_list_ascii l) = length l.
Proof. induction l as [|c l IH]; simpl; congruence. Qed.

(** Parsing the string form of a twelve-byte id gives the id back. *)
Lemma of_str_to_str o : (o < 16 ^ 24)%N -> of_str (to_str o) = Some o.
Proof.
  intros Ho. unfold of_str, to_str.
  rewrite length_string_of_list, length_to_hex, list_ascii_of_string_of_list_ascii.
  simpl Nat.eqb. cbv iota.
  rewrite (of_hex_to_hex 24 o 0 []) by exact Ho. reflexivity.
Qed.

End ObjectIdFacts.

(** ** Editing the catalog *)

Lemma matches_by_id_iff o doc : Store.matches (by_id o) doc = true <-> has_id o doc.
Proof.
  split; [apply matches_by_id|].
  unfold has_id, Store.matches. simpl. intros ->. simpl.
  rewrite N.eqb_refl. reflexivity.
Qed.

Lemma not_matches_by_id o doc : Store.matches (by_id o) doc = false <-> ~ has_id o doc.
Proof.
  rewrite <- matches_by_id_iff.
  destruct (Store.matches (by_id o) doc); split; congruence.
Qed.

Lemma delete_one_removed flt c doc :
  Store.find_one flt c = Some doc ->
  exists l1 l2,
    c = (l1 ++ doc :: l2)%list /\
    fst (Store.delete_one flt c) = (l1 ++ l2)%list /\
    Forall (fun x => Store.matches flt x = false) l1.
Proof.
  induction c as [|x rest IH]; simpl; [discriminate|].
  unfold Store.find_one in *. simpl.
  destruct (Store.matches flt x) eqn:Hm.
  - intros [= ->]. exists [], rest. simpl. auto.
  - intros H. destruct (IH H) as (l1 & l2 & -> & Hu & Hl1).
    destruct (Store.delete_one flt _) as [rest' n]. simpl in *. subst rest'.
    exists (x :: l1), l2. simpl. auto.
Qed.

(** [find_one] on a list split at its first match. *)
Lemma find_one_split flt l1 doc l2 :
  Forall (fun x => Store.matches flt x = false) l1 ->
  Store.matches flt doc = true ->
  Store.find_one flt (l1 ++ doc :: l2) = Some doc.
Proof.
  unfold Store.find_one. induction 1 as [|x l1 Hx _ IH]; intros Hd; simpl.
  - rewrite Hd. reflexivity.
  - rewrite Hx. apply IH, Hd.
Qed.

Lemma find_one_none flt c :
  Store.find_one flt c = None <-> Forall (fun x => Store.matches flt x = false) c.
Proof.
  unfold Store.find_one. induction c as [|x c IH]; simpl.
  - split; [constructor|reflexivity].
  - destruct (Store.matches flt x) eqn:Hx.
    + split; [discriminate|]. intros H. inversion H. congruence.
    + rewrite IH. split; [constructor; assumption|]. intros H. inversion H. assumption.
Qed.

(** [update_menu_item] against an available store, case by case. *)
Lemma update_menu_item_run d item_id payload :
  update_menu_item item_id payload (Some d) =
  match ObjectId.of_str item_id with
  | None => (Raise invalid_id, Some d)
  | Some o =>
      match Store.find_one (by_id o) (Store.coll d "menuitem") with
      | None => (Raise item_not_found, Some d)
      | Some _ =>
          (Ok true,
           Some (<["menuitem" :=
                    fst (Store.update_one (by_id o) payload (Store.coll d "menuitem"))]> d))
      end
  end.
Proof.
  unfold update_menu_item, db_update_one. run_monad.
  destruct (ObjectId.of_str item_id) as [o|]; simpl; [|reflexivity].
  fold (by_id o).
  pose proof (StoreFacts.update_one_matched (by_id o) payload (Store.coll d "menuitem")) as Hn.
  destruct (Store.update_one _ _ _) as [c n]. simpl in Hn. subst n.
  destruct (Store.find_one _ _); reflexivity.
Qed.

(** [delete_menu_item] against an available store, case by case. *)
Lemma delete_menu_item_run d item_id :
  delete_menu_item item_id (Some d) =
  match ObjectId.of_str item_id with
  | None => (Raise invalid_id, Some d)
  | Some o =>
      match Store.find_one (by_id o) (Store.coll d "menuitem") with
      | None => (Raise item_not_found, Some d)
      | Some _ =>
          (Ok true,
           Some (<["menuitem" :=
                    fst (Store.delete_one (by_id o) (Store.coll d "menuitem"))]> d))
      end
  end.
Proof.
  unfold delete_menu_item, db_delete_one. run_monad.
  destruct (ObjectId.of_str item_id) as [o|]; simpl; [|reflexivity].
  fold (by_id o).
  pose proof (StoreFacts.delete_one_deleted (by_id o) (Store.coll d "menuitem")) as Hn.
  destruct (Store.delete_one _ _) as [c n]. simpl in Hn. subst n.
  destruct (Store.find_one _ _); reflexivity.
Qed.

Lemma Forall_not_has_id o (l : list document) :
  Forall (fun x => ~ has_id o x) l ->
  Forall (fun x => Store.matches (by_id o) x = false) l.
Proof. intros H. eapply Forall_impl; [exact H|]. intros x. apply not_matches_by_id. Qed.

Lemma update_one_split flt patch l1 doc l2 :
  Forall (fun x => Store.matches flt x = false) l1 ->
  Store.matches flt doc = true ->
  Store.update_one flt patch (l1 ++ doc :: l2)
  = ((l1 ++ (patch ∪ doc) :: l2)%list, 1%nat).
Proof.
  induction 1 as [|x l1 Hx _ IH]; intros Hd; simpl.
  - rewrite Hd. reflexivity.
  - rewrite Hx, (IH Hd). reflexivity.
Qed.

Lemma delete_one_split flt l1 doc l2 :
  Forall (fun x => Store.matches flt x = false) l1 ->
  Store.matches flt doc = true ->
  Store.delete_one flt (l1 ++ doc :: l2) = ((l1 ++ l2)%list, 1%nat).
Proof.
  induction 1 as [|x l1 Hx _ IH]; intros Hd; simpl.
  - rewrite Hd. reflexivity.
  - rewrite Hx, (IH Hd). reflexivity.
Qed.

(** X1: [update_menu_item] merges a payload of plain fields with scalar
    values into the first menu item with the given id, with none of the
    checks of [Menuitem]: the fields of the payload take its values, as
    they are, and the other fields stay.  A malformed id fails with "Invalid
    id" (400), an id that no menu item carries with "Item not found" (404);
    both leave the store as it was. *)
Theorem update_menu_item_outcome d item_id payload :
  let run := update_menu_item item_id payload (Some d) in
  (ObjectId.of_str item_id = None -> run = (Raise invalid_id, Some d)) /\
  (forall o,
     ObjectId.of_str item_id = Some o ->
     Forall (fun x => ~ has_id o x) (Store.coll d "menuitem") ->
     run = (Raise item_not_found, Some d)) /\
  (forall o l1 doc l2,
     plain_payload payload ->
     ObjectId.of_str item_id = Some o ->
     Store.coll d "menuitem" = (l1 ++ doc :: l2)%list ->
     Forall (fun x => ~ has_id o x) l1 ->
     has_id o doc ->
     run = (Ok true, Some (<["menuitem" := (l1 ++ (payload ∪ doc) :: l2)%list]> d)) /\
     has_id o (payload ∪ doc) /\
     (forall k v, payload !! k = Some v -> (payload ∪ doc) !! k = Some v) /\
     (forall k, payload !! k = None -> (payload ∪ doc) !! k = doc !! k)).
Proof.
  cbv zeta. rewrite update_menu_item_run. split; [|split].
  - intros ->. reflexivity.
  - intros o -> Hnone.
    apply Forall_not_has_id, find_one_none in Hnone. rewrite Hnone. reflexivity.
  - intros o l1 doc l2 [_ Hplain] -> Hc Hl1 Hdoc.
    assert (Hid : payload !! "_id" = None).
    { destruct (payload !! "_id") as [v|] eqn:Hv; [|reflexivity].
      destruct (Hplain _ _ Hv) as [(_ & Hne & _) _]. destruct (Hne eq_refl). }
    pose proof Hdoc as Hdoc0.
    apply Forall_not_has_id in Hl1. apply matches_by_id_iff in Hdoc.
    rewrite Hc, (find_one_split _ _ _ l2 Hl1 Hdoc), (update_one_split _ payload _ _ l2 Hl1 Hdoc).
    split; [reflexivity|]. split; [|split].
    + unfold has_id. rewrite lookup_union_r; [exact Hdoc0|exact Hid].
    + intros k v Hk. apply lookup_union_Some_l, Hk.
    + intros k Hk. apply lookup_union_r, Hk.
Qed.

(** The tea of the catalog is repriced to 5.00. *)
Lemma update_menu_item_outcome_witness :
  update_menu_item Scenario.tea_id {["price" := VFloat Scenario.five]} (Some Scenario.catalog)
  = (Ok true,
     Some (<["menuitem" :=
              [{["price" := VFloat Scenario.five]} ∪ stored_item 1 Scenario.tea;
               stored_item 2 Scenario.cake]]> Scenario.catalog)).
Proof.
  assert (Hplain : plain_payload {["price" := VFloat Scenario.five]}).
  { split; [apply map_non_empty_singleton|].
    intros k v [<- <-]%lookup_singleton_Some.
    split; [|exact I]. split; [discriminate|]. split; [discriminate|reflexivity]. }
  assert (Hc : Store.coll Scenario.catalog "menuitem"
               = [stored_item 1 Scenario.tea; stored_item 2 Scenario.cake]) by vm_refl.
  exact (proj1 (proj2 (proj2 (update_menu_item_outcome Scenario.catalog Scenario.tea_id
                                {["price" := VFloat Scenario.five]}))
                  1%N [] (stored_item 1 Scenario.tea) [stored_item 2 Scenario.cake]
                  Hplain eq_refl Hc (List.Forall_nil _) eq_refl)).
Defined.

Lemma coll_insert_eq name c (d : Store.database) : Store.coll (<[name := c]> d) name = c.
Proof. unfold Store.coll. rewrite lookup_insert_eq. reflexivity. Qed.

Lemma coll_insert_ne name name' c (d : Store.database) :
  name <> name' -> Store.coll (<[name := c]> d) name' = Store.coll d name'.
Proof. intros H. unfold Store.coll. rewrite lookup_insert_ne by exact H. reflexivity. Qed.

(** X2: [delete_menu_item] removes the first menu item with the given id
    and nothing else.  A malformed id fails with "Invalid id" (400) and an
    id that no menu item carries with "Item not found" (404), both leaving
    the store as it was; so deleting the same item again, when no other
    document carries its id, is an error and not a silent success. *)
Theorem delete_menu_item_outcome d item_id :
  let run := delete_menu_item item_id (Some d) in
  (ObjectId.of_str item_id = None -> run = (Raise invalid_id, Some d)) /\
  (forall o,
     ObjectId.of_str item_id = Some o ->
     Forall (fun x => ~ has_id o x) (Store.coll d "menuitem") ->
     run = (Raise item_not_found, Some d)) /\
  (forall o l1 doc l2,
     ObjectId.of_str item_id = Some o ->
     Store.coll d "menuitem" = (l1 ++ doc :: l2)%list ->
     Forall (fun x => ~ has_id o x) l1 ->
     has_id o doc ->
     let d' := <["menuitem" := (l1 ++ l2)%list]> d in
     run = (Ok true, Some d') /\
     (Forall (fun x => ~ has_id o x) l2 ->
      delete_menu_item item_id (Some d') = (Raise item_not_found, Some d'))).
Proof.
  cbv zeta. rewrite !delete_menu_item_run. split; [|split].
  - intros ->. reflexivity.
  - intros o -> Hnone.
    apply Forall_not_has_id, find_one_none in Hnone. rewrite Hnone. reflexivity.
  - intros o l1 doc l2 Ho Hc Hl1 Hdoc. rewrite Ho.
    pose proof (Forall_not_has_id _ _ Hl1) as Hm1. apply matches_by_id_iff in Hdoc.
    rewrite Hc, (find_one_split _ _ _ l2 Hm1 Hdoc), (delete_one_split _ _ _ l2 Hm1 Hdoc).
    split; [reflexivity|].
    intros Hl2. rewrite delete_menu_item_run, Ho, coll_insert_eq.
    assert (Hf : Store.find_one (by_id o) (l1 ++ l2) = None).
    { apply find_one_none, Forall_app. split; [exact Hm1|].
      apply Forall_not_has_id, Hl2. }
    rewrite Hf. reflexivity.
Qed.

(** Menu item 1 of the catalog, the tea, is deleted, and then it is gone. *)
Lemma delete_menu_item_outcome_witness :
  let d' := <["menuitem" := tail (Store.coll Scenario.catalog "menuitem")]> Scenario.catalog in
  delete_menu_item Scenario.tea_id (Some Scenario.catalog) = (Ok true, Some d') /\
  delete_menu_item Scenario.tea_id (Some d') = (Raise item_not_found, Some d').
Proof.
  pose proof (proj2 (proj2 (delete_menu_item_outcome Scenario.catalog Scenario.tea_id))
                1%N [] (default ∅ (head (Store.coll Scenario.catalog "menuitem")))
                (tail (Store.coll Scenario.catalog "menuitem"))
                eq_refl eq_refl (List.Forall_nil _) eq_refl) as [H1 H2].
  split; [exact H1|]. apply H2.
  repeat constructor; intros H; vm_compute in H; discriminate H.
Defined.

(** ** Listing *)

Lemma stringify_ids_ok docs :
  Forall has_object_id docs ->
  stringify_ids docs = Ok (map listed docs).
Proof.
  induction 1 as [|doc docs (o & Ho) _ IH]; simpl; [reflexivity|].
  unfold stringify_id, getitem, listed, get. rewrite Ho. simpl. rewrite IH. reflexivity.
Qed.

Lemma stringify_ids_key_error docs :
  Exists (fun doc => doc !! "_id" = None) docs ->
  stringify_ids docs = Raise KeyError.
Proof.
  induction 1 as [doc docs H|doc docs _ IH]; simpl.
  - unfold stringify_id, getitem. rewrite H. reflexivity.
  - unfold stringify_id, getitem. destruct (doc !! "_id"); simpl; [|reflexivity].
    rewrite IH. reflexivity.
Qed.

Lemma listed_id o doc :
  has_id o doc -> listed doc = <["_id" := VStr (ObjectId.to_str o)]> doc.
Proof. unfold listed, get, has_id. intros ->. reflexivity. Qed.

(** X3: [list_menu] and [list_orders] hand out one document for each
    stored one, in stored order, equal to it in every field but [_id],
    which is the 24-digit string of the stored object id; the rewriting of
    [_id] is done on what is handed out and the store stays as it was.  A
    stored document without [_id] makes them raise [KeyError]. *)
Theorem listing_outcome d :
  (Forall has_object_id (Store.coll d "menuitem") ->
   exists out,
     list_menu (Some d) = (Ok out, Some d) /\
     Forall2 (fun doc doc' =>
                (exists o, has_id o doc /\ doc' !! "_id" = Some (VStr (ObjectId.to_str o))) /\
                forall k, k <> "_id" -> doc' !! k = doc !! k)
             (Store.coll d "menuitem") out) /\
  (Forall has_object_id (Store.coll d "order") ->
   exists out,
     list_orders (Some d) = (Ok out, Some d) /\
     Forall2 (fun doc doc' =>
                (exists o, has_id o doc /\ doc' !! "_id" = Some (VStr (ObjectId.to_str o))) /\
                forall k, k <> "_id" -> doc' !! k = doc !! k)
             (Store.coll d "order") out) /\
  (Exists (fun doc => doc !! "_id" = None) (Store.coll d "menuitem") ->
   list_menu (Some d) = (Raise KeyError, Some d)) /\
  (Exists (fun doc => doc !! "_id" = None) (Store.coll d "order") ->
   list_orders (Some d) = (Raise KeyError, Some d)).
Proof.
  assert (Hl : forall docs : list document,
            Forall has_object_id docs ->
            Forall2 (fun doc doc' =>
                (exists o, has_id o doc /\ doc' !! "_id" = Some (VStr (ObjectId.to_str o))) /\
                forall k, k <> "_id" -> doc' !! k = doc !! k) docs (map listed docs)).
  { induction 1 as [|doc docs (o & Ho) _ IH]; simpl; constructor; [|exact IH].
    rewrite (listed_id o doc Ho). split.
    - exists o. split; [exact Ho|apply lookup_insert_eq].
    - intros k Hk. apply lookup_insert_ne. congruence. }
  unfold list_menu, list_orders. run_monad.
  repeat split.
  - intros H. exists (map listed (Store.coll d "menuitem")).
    rewrite (stringify_ids_ok _ H). split; [reflexivity|apply Hl, H].
  - intros H. exists (map listed (Store.coll d "order")).
    rewrite (stringify_ids_ok _ H). split; [reflexivity|apply Hl, H].
  - intros H. rewrite (stringify_ids_key_error _ H). reflexivity.
  - intros H. rewrite (stringify_ids_key_error _ H). reflexivity.
Qed.

(** ** The ids in the store *)

Lemma has_id_doc_id o doc : has_id o doc -> Store.doc_id doc = o.
Proof. unfold has_id, Store.doc_id. intros ->. reflexivity. Qed.

Lemma store_wf_insert (d : Store.database) name c :
  store_wf d ->
  Forall has_object_id c -> NoDup (map Store.doc_id c) ->
  store_wf (<[name := c]> d).
Proof.
  intros Hwf Hc Hn name' c' Hl.
  destruct (decide (name = name')) as [<-|Hne].
  - rewrite lookup_insert_eq in Hl. injection Hl as <-. auto.
  - rewrite lookup_insert_ne in Hl by exact Hne. eauto.
Qed.

Lemma store_wf_coll d name :
  store_wf d ->
  Forall has_object_id (Store.coll d name) /\ NoDup (map Store.doc_id (Store.coll d name)).
Proof.
  intros Hwf. unfold Store.coll.
  destruct (d !! name) as [c|] eqn:Hc; simpl; [eauto|].
  split; constructor.
Qed.

Lemma generate_fresh_coll d name doc :
  List.In doc (Store.coll d name) -> (Store.doc_id doc < Store.generate d)%N.
Proof.
  unfold Store.coll. destruct (d !! name) as [c|] eqn:Hc; simpl; [|tauto].
  apply (generate_fresh d name c doc Hc).
Qed.

(** Inserting keeps the ids present and distinct. *)
Lemma store_wf_insert_one d name doc :
  store_wf d -> store_wf (fst (Store.insert_one name doc d)).
Proof.
  intros Hwf. unfold Store.insert_one. simpl.
  destruct (store_wf_coll d name Hwf) as [Hp Hn].
  apply store_wf_insert; [exact Hwf| |].
  - apply Forall_app. split; [exact Hp|].
    constructor; [|constructor]. exists (Store.generate d). apply lookup_insert_eq.
  - rewrite map_app. simpl. apply NoDup_app. split; [exact Hn|]. split.
    + intros x Hx [Heq|[]]%list_elem_of_In. apply list_elem_of_In, in_map_iff in Hx.
      destruct Hx as (y & <- & Hy).
      pose proof (generate_fresh_coll d name y Hy) as Hlt.
      unfold Store.doc_id at 1 in Heq. rewrite lookup_insert_eq in Heq. lia.
    + apply NoDup_singleton.
Qed.

Lemma update_one_ids flt patch c :
  patch !! "_id" = None ->
  map Store.doc_id (fst (Store.update_one flt patch c)) = map Store.doc_id c /\
  (Forall has_object_id c -> Forall has_object_id (fst (Store.update_one flt patch c))).
Proof.
  intros Hp.
  assert (Hid : forall doc : document, (patch ∪ doc) !! "_id" = doc !! "_id").
  { intros doc. apply lookup_union_r, Hp. }
  induction c as [|doc rest [IH1 IH2]]; simpl; [split; auto|].
  destruct (Store.matches flt doc).
  - simpl. split.
    + f_equal. unfold Store.doc_id. rewrite Hid. reflexivity.
    + intros H. inversion H as [|? ? (o & Ho) Hrest]; subst.
      constructor; [|exact Hrest]. exists o. unfold has_id. rewrite Hid. exact Ho.
  - destruct (Store.update_one flt patch rest) as [rest' n]. simpl in *. split.
    + f_equal. exact IH1.
    + intros H. inversion H; subst. constructor; auto.
Qed.

Lemma store_wf_handle r d d' :
  store_wf d -> ~ sets_id r -> handle r (Some d) = Some d' -> store_wf d'.
Proof.
  intros Hwf Hr. destruct r; cbn [handle].
  - intros [= <-]. exact (store_wf_insert_one d "menuitem" _ Hwf).
  - unfold list_menu. rewrite list_state. intros [= <-]. exact Hwf.
  - rewrite update_menu_item_run.
    destruct (ObjectId.of_str item_id) as [o|]; simpl; [|intros [= <-]; exact Hwf].
    destruct (Store.find_one _ _); simpl; [|intros [= <-]; exact Hwf].
    intros [= <-]. simpl in Hr.
    assert (Hp : payload !! "_id" = None).
    { destruct (payload !! "_id"); [exfalso; apply Hr; discriminate|reflexivity]. }
    destruct (store_wf_coll d "menuitem" Hwf) as [Hpres Hn].
    destruct (update_one_ids (by_id o) payload (Store.coll d "menuitem") Hp) as [H1 H2].
    apply store_wf_insert; [exact Hwf|auto|]. rewrite H1. exact Hn.
  - rewrite delete_menu_item_run.
    destruct (ObjectId.of_str item_id) as [o|]; simpl; [|intros [= <-]; exact Hwf].
    destruct (Store.find_one _ _) as [doc|] eqn:Hf; simpl; [|intros [= <-]; exact Hwf].
    intros [= <-].
    destruct (store_wf_coll d "menuitem" Hwf) as [Hpres Hn].
    destruct (delete_one_removed _ _ _ Hf) as (l1 & l2 & Hc & -> & _).
    rewrite Hc in Hpres, Hn.
    apply Forall_app in Hpres. destruct Hpres as [Hp1 Hp2]. inversion Hp2; subst.
    rewrite map_app in Hn. simpl in Hn.
    apply NoDup_app in Hn. destruct Hn as (Hn1 & Hn12 & Hn2).
    apply NoDup_cons in Hn2. destruct Hn2 as [_ Hn2].
    apply store_wf_insert; [exact Hwf| |].
    + apply Forall_app. auto.
    + rewrite map_app. apply NoDup_app. repeat split; [exact Hn1| |exact Hn2].
      intros x Hx Hx2. apply (Hn12 x Hx). right. exact Hx2.
  - rewrite create_order_run.
    destruct (priced_lines d _ [] Float.zero) as [[its sub]|e]; simpl; [|intros [= <-]; exact Hwf].
    intros [= <-]. exact (store_wf_insert_one d "order" _ Hwf).
  - unfold list_orders. rewrite list_state. intros [= <-]. exact Hwf.
  - rewrite update_order_status_run. cbv zeta.
    destruct (py_in _ statuses); [|intros [= <-]; exact Hwf].
    destruct (ObjectId.of_str order_id) as [o|]; [|intros [= <-]; exact Hwf].
    destruct (Store.find_one _ _); [|intros [= <-]; exact Hwf].
    intros [= <-].
    destruct (store_wf_coll d "order" Hwf) as [Hpres Hn].
    assert (Hp : ({["status" := get payload "status" VNone]} : document) !! "_id" = None).
    { apply lookup_singleton_ne. discriminate. }
    destruct (update_one_ids (by_id o) _ (Store.coll d "order") Hp) as [H1 H2].
    apply store_wf_insert; [exact Hwf|auto|]. rewrite H1. exact Hn.
  - rewrite metrics_state. intros [= <-]. exact Hwf.
Qed.

Lemma handle_some r d : exists d', handle r (Some d) = Some d'.
Proof.
  destruct r; cbn [handle].
  - eexists. reflexivity.
  - unfold list_menu. rewrite list_state. eauto.
  - rewrite update_menu_item_run.
    destruct (ObjectId.of_str item_id); [destruct (Store.find_one _ _)|]; eauto.
  - rewrite delete_menu_item_run.
    destruct (ObjectId.of_str item_id); [destruct (Store.find_one _ _)|]; eauto.
  - rewrite create_order_run.
    destruct (priced_lines d _ [] Float.zero) as [[its sub]|e]; eauto.
  - unfold list_orders. rewrite list_state. eauto.
  - rewrite update_order_status_run. cbv zeta.
    destruct (py_in _ statuses); [|eauto].
    destruct (ObjectId.of_str order_id); [destruct (Store.find_one _ _)|]; eauto.
  - rewrite metrics_state. eauto.
Qed.

Lemma store_wf_empty : store_wf ∅.
Proof. intros name c H. rewrite lookup_empty in H. discriminate. Qed.

(** X4: the ids in the store.  If every stored document carries an object
    id and no two documents of a collection carry the same one, this is
    still so after any sequence of calls, returning or raising, as long as
    no [update_menu_item] has [_id] in its payload; the empty store is such
    a store.  On such a store [list_menu] and [list_orders] return, so they
    never raise [KeyError] on what the endpoints have stored. *)
Theorem store_ids_invariant rs d d' :
  store_wf d ->
  Forall (fun r => ~ sets_id r) rs ->
  handle_all rs (Some d) = Some d' ->
  store_wf d' /\
  (exists out, list_menu (Some d') = (Ok out, Some d')) /\
  (exists out, list_orders (Some d') = (Ok out, Some d')).
Proof.
  intros Hwf Hrs Hrun.
  assert (Hwf' : store_wf d').
  { revert d Hwf Hrun. induction Hrs as [|r rs Hr _ IH]; intros d Hwf; simpl.
    - intros [= <-]. exact Hwf.
    - destruct (handle_some r d) as (d1 & H1). unfold handle_all. simpl. rewrite H1.
      apply IH. exact (store_wf_handle r d d1 Hwf Hr H1). }
  split; [exact Hwf'|].
  unfold list_menu, list_orders. run_monad.
  rewrite (stringify_ids_ok _ (proj1 (store_wf_coll d' "menuitem" Hwf'))).
  rewrite (stringify_ids_ok _ (proj1 (store_wf_coll d' "order" Hwf'))).
  eauto.
Qed.

(** The catalog: two items added to the empty store. *)
Lemma store_ids_invariant_witness :
  store_wf Scenario.catalog /\
  (exists out, list_menu (Some Scenario.catalog) = (Ok out, Some Scenario.catalog)) /\
  (exists out, list_orders (Some Scenario.catalog) = (Ok out, Some Scenario.catalog)).
Proof.
  apply (store_ids_invariant [AddMenuItem Scenario.tea; AddMenuItem Scenario.cake] ∅).
  - exact store_wf_empty.
  - repeat constructor; intros H; exact H.
  - vm_refl.
Defined.

(** ** Adding to the catalog *)

Lemma fresh_not_has_id d name doc :
  List.In doc (Store.coll d name) -> ~ has_id (Store.generate d) doc.
Proof.
  intros Hin Hid. pose proof (generate_fresh_coll d name doc Hin) as Hlt.
  rewrite (has_id_doc_id _ _ Hid) in Hlt. lia.
Qed.

Lemma fresh_not_matches d name :
  Forall (fun x => Store.matches (by_id (Store.generate d)) x = false) (Store.coll d name).
Proof.
  apply List.Forall_forall. intros doc Hin.
  apply not_matches_by_id, (fresh_not_has_id d name doc Hin).
Qed.

Lemma add_menu_item_run d item :
  add_menu_item item (Some d) =
  (Ok (ObjectId.to_str (Store.generate d)),
   Some (<["menuitem" :=
            (Store.coll d "menuitem" ++ [stored_item (Store.generate d) item])%list]> d)).
Proof. reflexivity. Qed.

Lemma list_menu_run d : list_menu (Some d) = (stringify_ids (Store.coll d "menuitem"), Some d).
Proof. reflexivity. Qed.

Lemma listed_stored_item o item :
  listed (stored_item o item) = <["_id" := VStr (ObjectId.to_str o)]> (Menuitem.model_dump item).
Proof.
  unfold listed, stored_item, get. rewrite lookup_insert_eq. simpl.
  apply insert_insert_eq.
Qed.

(** X5: what [add_menu_item] adds is what [list_menu] shows.  On a store
    whose menu items carry object ids, [add_menu_item] returns the string
    of an id that no stored document carries, touches no other collection,
    and [list_menu] afterwards returns what it returned before followed by
    the fields of the new item with that string as [_id]. *)
Theorem add_menu_item_then_list d item :
  Forall has_object_id (Store.coll d "menuitem") ->
  exists o d' before,
    add_menu_item item (Some d) = (Ok (ObjectId.to_str o), Some d') /\
    (forall name doc, List.In doc (Store.coll d name) -> ~ has_id o doc) /\
    (forall name, name <> "menuitem" -> Store.coll d' name = Store.coll d name) /\
    list_menu (Some d) = (Ok before, Some d) /\
    list_menu (Some d')
    = (Ok (before ++ [<["_id" := VStr (ObjectId.to_str o)]> (Menuitem.model_dump item)])%list,
       Some d').
Proof.
  intros Hids. rewrite add_menu_item_run.
  eexists (Store.generate d), _, (map listed (Store.coll d "menuitem")).
  split; [reflexivity|]. split; [|split; [|split]].
  - intros name doc. apply fresh_not_has_id.
  - intros name Hne. apply coll_insert_ne. congruence.
  - rewrite list_menu_run, (stringify_ids_ok _ Hids). reflexivity.
  - rewrite list_menu_run, coll_insert_eq, stringify_ids_ok.
    + rewrite map_app. simpl. rewrite listed_stored_item. reflexivity.
    + apply Forall_app. split; [exact Hids|].
      constructor; [|constructor]. exists (Store.generate d). apply lookup_insert_eq.
Qed.

(** Adding the cake to a menu that has the tea. *)
Lemma add_menu_item_then_list_witness :
  exists o d' before,
    add_menu_item Scenario.cake (Some (<["menuitem" := [stored_item 1 Scenario.tea]]> ∅))
    = (Ok (ObjectId.to_str o), Some d') /\
    (forall name doc,
       List.In doc (Store.coll (<["menuitem" := [stored_item 1 Scenario.tea]]> ∅) name) ->
       ~ has_id o doc) /\
    (forall name, name <> "menuitem" ->
       Store.coll d' name = Store.coll (<["menuitem" := [stored_item 1 Scenario.tea]]> ∅) name) /\
    list_menu (Some (<["menuitem" := [stored_item 1 Scenario.tea]]> ∅))
    = (Ok before, Some (<["menuitem" := [stored_item 1 Scenario.tea]]> ∅)) /\
    list_menu (Some d')
    = (Ok (before ++ [<["_id" := VStr (ObjectId.to_str o)]>
                        (Menuitem.model_dump Scenario.cake)])%list,
       Some d').
Proof.
  apply (add_menu_item_then_list (<["menuitem" := [stored_item 1 Scenario.tea]]> ∅)).
  rewrite coll_insert_eq. constructor; [|constructor].
  exists 1%N. apply lookup_insert_eq.
Defined.

(** X6: an item just added can be deleted by the id that came back, and
    the store is then as it was before the two calls, collection by
    collection (for ids of twelve bytes, as object ids are). *)
Theorem add_then_delete_menu_item d item :
  (Store.generate d < 16 ^ 24)%N ->
  exists item_id d' d'',
    add_menu_item item (Some d) = (Ok item_id, Some d') /\
    delete_menu_item item_id (Some d') = (Ok true, Some d'') /\
    forall name, Store.coll d'' name = Store.coll d name.
Proof.
  intros Hg. rewrite add_menu_item_run. eexists _, _, _. split; [reflexivity|].
  rewrite delete_menu_item_run, (ObjectIdFacts.of_str_to_str _ Hg), coll_insert_eq.
  assert (Hm : Store.matches (by_id (Store.generate d))
                 (stored_item (Store.generate d) item) = true).
  { apply matches_by_id_iff. apply lookup_insert_eq. }
  rewrite (find_one_split _ _ _ [] (fresh_not_matches d "menuitem") Hm).
  rewrite (delete_one_split _ _ _ [] (fresh_not_matches d "menuitem") Hm).
  split; [reflexivity|].
  intros name. rewrite app_nil_r. destruct (decide (name = "menuitem")) as [->|Hne].
  - apply coll_insert_eq.
  - rewrite !coll_insert_ne by congruence. reflexivity.
Qed.

(** Adding the cake to the empty store and deleting it again. *)
Lemma add_then_delete_menu_item_witness :
  exists item_id d' d'',
    add_menu_item Scenario.cake (Some ∅) = (Ok item_id, Some d') /\
    delete_menu_item item_id (Some d') = (Ok true, Some d'') /\
    forall name, Store.coll d'' name = Store.coll ∅ name.
Proof.
  apply (add_then_delete_menu_item ∅ Scenario.cake). vm_refl.
Defined.

(** ** Ordering from the catalog *)

Lemma stored_item_fields o item :
  stored_item o item !! "_id" = Some (VObjectId o) /\
  stored_item o item !! "name" = Some (VStr (Menuitem.name item)) /\
  stored_item o item !! "price" = Some (VFloat (Menuitem.price item)) /\
  stored_item o item !! "is_available" = Some (VBool (Menuitem.is_available item)).
Proof. repeat split; reflexivity. Qed.

Lemma matches_available_iff o doc :
  Store.matches (available_filter o) doc = true <->
  has_id o doc /\ doc !! "is_available" = Some (VBool true).
Proof.
  unfold Store.matches, available_filter, has_id. simpl. rewrite andb_true_r, andb_true_iff.
  split.
  - intros [H1 H2].
    destruct (doc !! "_id") as [v|]; [|discriminate].
    apply (value_eqb_object_id o) in H1. subst v.
    destruct (doc !! "is_available") as [v|]; [|discriminate].
    apply (value_eqb_bool true) in H2. subst v. auto.
  - intros [-> ->]. simpl. rewrite N.eqb_refl. auto.
Qed.

Lemma not_available_without_id o (l : list document) :
  Forall (fun x => ~ has_id o x) l ->
  Forall (fun x => Store.matches (available_filter o) x = false) l.
Proof.
  intros H. eapply Forall_impl; [exact H|]. intros x Hx.
  destruct (Store.matches (available_filter o) x) eqn:Hm; [|reflexivity].
  apply matches_available_iff in Hm. destruct Hm as [Hid _]. destruct (Hx Hid).
Qed.

Lemma get_some (d : document) key dflt v : d !! key = Some v -> get d key dflt = v.
Proof. unfold get. intros ->. reflexivity. Qed.

(** A line for an id that finds nothing on the menu. *)
Lemma priced_unavailable d i mid o q :
  i !! "menu_item_id" = Some (VStr mid) ->
  py_int (get i "quantity" (VInt 1)) = Ok q ->
  ObjectId.of_str mid = Some o ->
  available d o = None ->
  priced d i = Raise (HTTPException 400 ("Menu item " ++ mid ++ " unavailable")).
Proof.
  intros Hmid Hq Ho Hd. unfold priced, price_line. run_monad.
  rewrite Hq. simpl. unfold get at 1. rewrite Hmid. simpl. rewrite Ho. simpl.
  fold (available_filter o). fold (available d o). rewrite Hd. simpl.
  unfold unavailable, get. rewrite Hmid. reflexivity.
Qed.

(** [create_order] on a request of one line. *)
Lemma create_order_one_line d payload i :
  CreateOrder.items payload = [i] ->
  create_order payload (Some d) =
  match priced d i with
  | Raise e => (Raise e, Some d)
  | Ok it => (Ok (created (build_order payload [it]) d),
              Some (persist (build_order payload [it]) d))
  end.
Proof.
  intros Hitems. rewrite create_order_run, Hitems. simpl.
  destruct (priced d i); reflexivity.
Qed.

(** X7: an item that was added can be ordered by the id that came back
    exactly when it was added as available.  For a one-line order for it
    whose quantity [int] accepts: the order fails with "Menu item <id>
    unavailable" when the item is off the menu; when it is on the menu, the
    line passes the schema and the quantity is an int of eight bytes, the
    order is created with one line that snapshots the item's name and
    price, and [subtotal = round(0.0 + price * quantity, 2)]. *)
Theorem added_item_is_orderable d item item_id d' payload i q :
  (Store.generate d < 16 ^ 24)%N ->
  add_menu_item item (Some d) = (Ok item_id, Some d') ->
  CreateOrder.items payload = [i] ->
  i !! "menu_item_id" = Some (VStr item_id) ->
  py_int (get i "quantity" (VInt 1)) = Ok q ->
  (Menuitem.is_available item = false ->
   create_order payload (Some d')
   = (Raise (HTTPException 400 ("Menu item " ++ item_id ++ " unavailable")), Some d')) /\
  (forall qf,
     Menuitem.is_available item = true ->
     ge0 (Menuitem.price item) = true -> 1 <= q -> q < 2 ^ 63 ->
     Float.of_int q = Ok qf ->
     ge0 (Float.mul (Menuitem.price item) qf) = true ->
     let it := {| Orderitem.menu_item_id := item_id;
                  Orderitem.name := Menuitem.name item;
                  Orderitem.price := Menuitem.price item;
                  Orderitem.quantity := q;
                  Orderitem.line_total := Float.mul (Menuitem.price item) qf |} in
     exists r doc,
       create_order payload (Some d')
       = (Ok r, Some (<["order" := (Store.coll d' "order" ++ [doc])%list]> d')) /\
       doc !! "items" = Some (VList [Orderitem.model_dump it]) /\
       subtotal r = Float.round2 (Float.add Float.zero (Float.mul (Menuitem.price item) qf))).
Proof.
  intros Hg Hadd Hitems Hmid Hq.
  rewrite add_menu_item_run in Hadd. injection Hadd as <- <-.
  set (g := Store.generate d) in *.
  set (d' := <["menuitem" := (Store.coll d "menuitem" ++ [stored_item g item])%list]> d).
  destruct (stored_item_fields g item) as (Fid & Fname & Fprice & Favail).
  assert (Hfresh : Forall (fun x => Store.matches (available_filter g) x = false)
                     (Store.coll d "menuitem")).
  { apply not_available_without_id, List.Forall_forall.
    intros doc Hin. apply (fresh_not_has_id d "menuitem" doc Hin). }
  rewrite (create_order_one_line d' payload i Hitems). split.
  - intros Hoff.
    rewrite (priced_unavailable d' i _ g q Hmid Hq (ObjectIdFacts.of_str_to_str _ Hg));
      [reflexivity|].
    unfold available, d'. rewrite coll_insert_eq.
    apply find_one_none, Forall_app. split; [exact Hfresh|].
    constructor; [|constructor].
    destruct (Store.matches _ _) eqn:Hm; [|reflexivity].
    apply matches_available_iff in Hm. destruct Hm as [_ Hm].
    rewrite Favail, Hoff in Hm. discriminate.
  - intros qf Hon Hp Hq1 _ Hqf Hlt it.
    assert (Ha : available d' g = Some (stored_item g item)).
    { unfold available, d'. rewrite coll_insert_eq.
      apply find_one_split; [exact Hfresh|].
      apply matches_available_iff. rewrite Favail, Hon. split; [exact Fid|reflexivity]. }
    assert (Hv : line_valid d' i it).
    { exists g, (stored_item g item), qf. subst it.
      cbn [Orderitem.menu_item_id Orderitem.name Orderitem.price Orderitem.quantity
           Orderitem.line_total].
      split.
      { rewrite (get_some _ _ _ _ Hmid). cbn [ObjectId.make].
        rewrite (ObjectIdFacts.of_str_to_str _ Hg). reflexivity. }
      split; [exact Ha|]. split; [exact Hq|].
      split; [rewrite (get_some _ _ _ _ Fprice); reflexivity|].
      split; [exact Hqf|]. split; [reflexivity|]. split; [exact Fname|].
      split; [reflexivity|]. split; [exact Hq1|]. split; [exact Hp|exact Hlt]. }
    apply priced_ok in Hv. rewrite Hv.
    eexists _, _. split; [reflexivity|]. split; reflexivity.
Qed.

(** The tea, added to the empty store and ordered twice over. *)
Lemma added_item_is_orderable_witness :
  let d' : Store.database := <["menuitem" := [stored_item 1 Scenario.tea]]> ∅ in
  let qf := S754_finite false 4503599627370496 (-51) in
  let it := {| Orderitem.menu_item_id := Scenario.tea_id;
               Orderitem.name := Menuitem.name Scenario.tea;
               Orderitem.price := Menuitem.price Scenario.tea;
               Orderitem.quantity := 2;
               Orderitem.line_total := Float.mul (Menuitem.price Scenario.tea) qf |} in
  exists r doc,
    create_order (Scenario.request "Ann" [Scenario.line Scenario.tea_id (VInt 2)]) (Some d')
    = (Ok r, Some (<["order" := (Store.coll d' "order" ++ [doc])%list]> d')) /\
    doc !! "items" = Some (VList [Orderitem.model_dump it]) /\
    subtotal r
    = Float.round2 (Float.add Float.zero (Float.mul (Menuitem.price Scenario.tea) qf)).
Proof.
  assert (Hg : (Store.generate ∅ < 16 ^ 24)%N) by vm_refl.
  assert (Hadd : add_menu_item Scenario.tea (Some ∅)
                 = (Ok Scenario.tea_id, Some (<["menuitem" := [stored_item 1 Scenario.tea]]> ∅)))
    by vm_refl.
  assert (Hmid : Scenario.line Scenario.tea_id (VInt 2) !! "menu_item_id"
                 = Some (VStr Scenario.tea_id)) by vm_refl.
  assert (Hq : py_int (get (Scenario.line Scenario.tea_id (VInt 2)) "quantity" (VInt 1)) = Ok 2)
    by vm_refl.
  assert (Hqf : Float.of_int 2 = Ok (S754_finite false 4503599627370496 (-51)))
    by vm_refl.
  assert (Hlt : ge0 (Float.mul (Menuitem.price Scenario.tea)
                       (S754_finite false 4503599627370496 (-51))) = true)
    by vm_refl.
  exact (proj2 (added_item_is_orderable ∅ Scenario.tea Scenario.tea_id _
                  (Scenario.request "Ann" [Scenario.line Scenario.tea_id (VInt 2)])
                  _ 2 Hg Hadd eq_refl Hmid Hq)
           _ eq_refl eq_refl (proj1 (Z.leb_le 1 2) eq_refl)
           (proj1 (Z.ltb_lt 2 (2 ^ 63)) eq_refl) Hqf Hlt).
Defined.

(** ** Metrics after a call *)

Lemma metrics_run d : metrics (Some d) = (Ok (counts d), Some d).
Proof.
  unfold metrics, counts. run_monad. unfold Store.count_documents.
  assert (H1 : forall l : list document,
            length (List.filter (Store.matches []) l) = length l).
  { induction l as [|x l IH]; simpl; congruence. }
  rewrite H1.
  rewrite (length_filter_dec _ (has_status ["pending"; "preparing"])).
  2:{ intros doc. unfold Store.matches. simpl. rewrite andb_true_r.
      apply (holds_in_status ["pending"; "preparing"]). }
  rewrite (length_filter_dec _ (has_status ["completed"])).
  2:{ intros doc. unfold Store.matches. simpl. rewrite andb_true_r.
      apply (holds_eq_status "completed"). }
  reflexivity.
Qed.

Lemma counts_menu (d : Store.database) c :
  counts (<["menuitem" := c]> d)
  = {| total_menu := length c;
       active_orders := active_orders (counts d);
       completed_orders := completed_orders (counts d) |}.
Proof.
  unfold counts. rewrite coll_insert_eq, coll_insert_ne by discriminate. reflexivity.
Qed.

Lemma counts_order (d : Store.database) c :
  counts (<["order" := c]> d)
  = {| total_menu := total_menu (counts d);
       active_orders := length (filter (has_status ["pending"; "preparing"]) c);
       completed_orders := length (filter (has_status ["completed"]) c) |}.
Proof.
  unfold counts. rewrite coll_insert_eq, coll_insert_ne by discriminate. reflexivity.
Qed.

Lemma update_one_length flt patch c :
  length (fst (Store.update_one flt patch c)) = length c.
Proof.
  induction c as [|doc rest IH]; simpl; [reflexivity|].
  destruct (Store.matches flt doc); simpl; [reflexivity|].
  destruct (Store.update_one flt patch rest) as [rest' n]. simpl in *. congruence.
Qed.

(** X8: [metrics] after a call on the catalog.  Adding a menu item raises
    [total_menu] by one; editing one, whatever the payload, changes no
    count; deleting one lowers [total_menu] by one when the call returns
    and changes nothing when it raises.  The two order counts are never
    touched by these calls. *)
Theorem metrics_after_menu_call d :
  let m := counts d in
  (forall item,
     fst (metrics (snd (add_menu_item item (Some d))))
     = Ok {| total_menu := S (total_menu m);
             active_orders := active_orders m;
             completed_orders := completed_orders m |}) /\
  (forall item_id payload,
     fst (metrics (snd (update_menu_item item_id payload (Some d)))) = Ok m) /\
  (forall item_id,
     fst (metrics (snd (delete_menu_item item_id (Some d))))
     = Ok (match fst (delete_menu_item item_id (Some d)) with
           | Ok _ => {| total_menu := pred (total_menu m);
                        active_orders := active_orders m;
                        completed_orders := completed_orders m |}
           | Raise _ => m
           end)).
Proof.
  cbv zeta. split; [|split].
  - intros item. rewrite add_menu_item_run. cbn [snd].
    rewrite metrics_run, counts_menu, length_app. cbn [fst length].
    rewrite Nat.add_1_r. reflexivity.
  - intros item_id payload. rewrite update_menu_item_run.
    destruct (ObjectId.of_str item_id) as [o|]; [|cbn [snd]; rewrite metrics_run; reflexivity].
    destruct (Store.find_one _ _); cbn [snd]; rewrite metrics_run; [|reflexivity].
    rewrite counts_menu, update_one_length. reflexivity.
  - intros item_id. rewrite delete_menu_item_run.
    destruct (ObjectId.of_str item_id) as [o|]; [|cbn [snd]; rewrite metrics_run; reflexivity].
    destruct (Store.find_one _ _) as [doc|] eqn:Hf; cbn [snd fst]; rewrite metrics_run;
      [|reflexivity].
    destruct (delete_one_removed _ _ _ Hf) as (l1 & l2 & Hc & Hdel & _).
    rewrite counts_menu, Hdel. unfold counts at 3. cbn [total_menu].
    rewrite Hc, !length_app. cbn [length]. rewrite Nat.add_succ_r. reflexivity.
Qed.

Lemma persisted_status o (d : Store.database) :
  (<["_id" := VObjectId (Store.generate d)]> (Order.model_dump o) : document) !! "status"
  = Some (VStr (Order.status o)).
Proof. reflexivity. Qed.

Lemma length_filter_snoc_true (P : document -> Prop) `{forall x, Decision (P x)}
  (c : list document) x :
  P x -> length (filter P (c ++ [x])%list) = S (length (filter P c)).
Proof.
  intros Hx. rewrite filter_app, length_app, filter_cons_True by exact Hx.
  simpl. lia.
Qed.

Lemma length_filter_snoc_false (P : document -> Prop) `{forall x, Decision (P x)}
  (c : list document) x :
  ~ P x -> length (filter P (c ++ [x])%list) = length (filter P c).
Proof.
  intros Hx. rewrite filter_app, length_app, filter_cons_False by exact Hx.
  simpl. lia.
Qed.

(** X9: [metrics] after [create_order].  An order that is created counts
    as active at once, since it is stored as [pending]: [active_orders]
    goes up by one and the other two counts stay.  A request that fails
    changes no count. *)
Theorem metrics_after_create_order d payload :
  let m := counts d in
  fst (metrics (snd (create_order payload (Some d))))
  = Ok (match fst (create_order payload (Some d)) with
        | Ok _ => {| total_menu := total_menu m;
                     active_orders := S (active_orders m);
                     completed_orders := completed_orders m |}
        | Raise _ => m
        end).
Proof.
  cbv zeta. rewrite create_order_run.
  destruct (priced_lines d _ [] Float.zero) as [[its sub]|e];
    cbn [fst snd]; rewrite metrics_run; [|reflexivity].
  unfold persist. rewrite counts_order.
  set (doc := <["_id" := VObjectId (Store.generate d)]> _).
  assert (Hst : doc !! "status" = Some (VStr "pending")) by apply persisted_status.
  rewrite (length_filter_snoc_true (has_status ["pending"; "preparing"])).
  2:{ exists "pending". split; [left; reflexivity|exact Hst]. }
  rewrite (length_filter_snoc_false (has_status ["completed"])).
  2:{ intros (s & [<-|[]] & Hs). rewrite Hst in Hs. discriminate. }
  reflexivity.
Qed.

(** ** Status updates *)

(** [find_one] returns the first match: the documents before it do not
    match. *)
Lemma find_one_first flt c doc :
  Store.find_one flt c = Some doc ->
  exists l1 l2,
    c = (l1 ++ doc :: l2)%list /\
    Forall (fun x => Store.matches flt x = false) l1 /\
    Store.matches flt doc = true.
Proof.
  unfold Store.find_one. induction c as [|x rest IH]; simpl; [discriminate|].
  destruct (Store.matches flt x) eqn:Hm.
  - intros [= ->]. exists [], rest. auto.
  - intros H. destruct (IH H) as (l1 & l2 & -> & Hl1 & Hd).
    exists (x :: l1), l2. auto.
Qed.

Lemma status_patch_id v (doc : document) o :
  has_id o doc -> has_id o ({["status" := v]} ∪ doc).
Proof.
  unfold has_id. intros H. rewrite lookup_union_r; [exact H|].
  apply lookup_singleton_ne. discriminate.
Qed.

Lemma status_patch_twice v1 v2 (doc : document) :
  ({["status" := v2]} ∪ ({["status" := v1]} ∪ doc) : document) = {["status" := v2]} ∪ doc.
Proof.
  rewrite <- !insert_union_singleton_l. apply insert_insert_eq.
Qed.

(** A successful status update, on the orders split at the order it
    reaches. *)
Lemma update_order_status_hit d order_id payload o l1 doc l2 :
  py_in (get payload "status" VNone) statuses = true ->
  ObjectId.of_str order_id = Some o ->
  Store.coll d "order" = (l1 ++ doc :: l2)%list ->
  Forall (fun x => Store.matches (by_id o) x = false) l1 ->
  Store.matches (by_id o) doc = true ->
  update_order_status order_id payload (Some d)
  = (Ok true,
     Some (<["order" := (l1 ++ ({["status" := get payload "status" VNone]} ∪ doc) :: l2)%list]> d)).
Proof.
  intros Hs Ho Hc Hl1 Hdoc.
  rewrite update_order_status_run. cbv zeta. rewrite Hs, Ho, Hc.
  rewrite (find_one_split _ _ _ l2 Hl1 Hdoc), (update_one_split _ _ _ _ l2 Hl1 Hdoc).
  reflexivity.
Qed.

(** X10: [update_order_status] looks at the id and at the new status only,
    never at the status the order has: a valid update does the same, and
    leaves the same store, whether or not another update of that order came
    before it.  The last write wins, and any status can follow any other. *)
Theorem update_order_status_overrides d order_id p1 p2 :
  enumerated (get p2 "status" VNone) ->
  update_order_status order_id p2 (snd (update_order_status order_id p1 (Some d)))
  = update_order_status order_id p2 (Some d).
Proof.
  intros Hs2. apply py_in_enumerated in Hs2.
  rewrite (update_order_status_run d order_id p1). cbv zeta.
  destruct (py_in (get p1 "status" VNone) statuses) eqn:Hs1; [|reflexivity].
  destruct (ObjectId.of_str order_id) as [o|] eqn:Ho; [|reflexivity].
  destruct (Store.find_one (by_id o) (Store.coll d "order")) as [doc|] eqn:Hf; [|reflexivity].
  destruct (find_one_first _ _ _ Hf) as (l1 & l2 & Hc & Hl1 & Hdoc).
  cbn [snd].
  rewrite Hc, (update_one_split _ _ _ _ l2 Hl1 Hdoc). cbn [fst].
  rewrite (update_order_status_hit d order_id p2 o l1 doc l2 Hs2 Ho Hc Hl1 Hdoc).
  rewrite (update_order_status_hit _ order_id p2 o l1 _ l2 Hs2 Ho (coll_insert_eq _ _ _) Hl1).
  2:{ apply matches_by_id_iff, status_patch_id, matches_by_id_iff, Hdoc. }
  rewrite status_patch_twice, insert_insert_eq. reflexivity.
Qed.

(** An order is completed after it was cancelled. *)
Lemma update_order_status_overrides_witness :
  update_order_status Scenario.order_id {["status" := VStr "completed"]}
    (snd (update_order_status Scenario.order_id {["status" := VStr "cancelled"]}
            (Some Scenario.with_order)))
  = update_order_status Scenario.order_id {["status" := VStr "completed"]}
      (Some Scenario.with_order).
Proof.
  apply (update_order_status_overrides Scenario.with_order Scenario.order_id).
  exists "completed". split; [reflexivity|].
  right. right. right. left. reflexivity.
Defined.

Lemma length_filter_split (P : document -> Prop) `{forall x, Decision (P x)}
  (l1 : list document) x l2 :
  length (filter P (l1 ++ x :: l2)%list)
  = (length (filter P l1) + (if decide (P x) then 1 else 0) + length (filter P l2))%nat.
Proof.
  rewrite filter_app, length_app, filter_cons.
  destruct (decide (P x)); simpl; lia.
Qed.

Lemma tally_patch ss s (doc : document) :
  tally ss ({["status" := VStr s]} ∪ doc) = tally_of ss s.
Proof.
  unfold tally, tally_of.
  assert (Hst : ({["status" := VStr s]} ∪ doc : document) !! "status" = Some (VStr s)).
  { apply lookup_union_Some_l, lookup_singleton_eq. }
  destruct (decide _) as [(s' & Hin & Hs')|Hno]; destruct (in_dec _ _ _) as [Hs|Hs];
    try reflexivity.
  - rewrite Hst in Hs'. injection Hs' as <-. destruct (Hs Hin).
  - destruct Hno. exists s. auto.
Qed.

(** X11: [metrics] after a status update that returns.  [total_menu]
    stays; each of the two order counts loses the order if its old status
    was counted there and gains it if its new status is: completing an
    active order moves it from [active_orders] to [completed_orders], and
    an order set to [ready] or [cancelled] is in neither count. *)
Theorem metrics_after_status_update d order_id payload o doc s :
  ObjectId.of_str order_id = Some o ->
  Store.find_one (by_id o) (Store.coll d "order") = Some doc ->
  payload !! "status" = Some (VStr s) ->
  List.In s statuses ->
  exists d' m',
    update_order_status order_id payload (Some d) = (Ok true, Some d') /\
    metrics (Some d') = (Ok m', Some d') /\
    total_menu m' = total_menu (counts d) /\
    (active_orders m' + tally ["pending"; "preparing"] doc
     = active_orders (counts d) + tally_of ["pending"; "preparing"] s)%nat /\
    (completed_orders m' + tally ["completed"] doc
     = completed_orders (counts d) + tally_of ["completed"] s)%nat.
Proof.
  intros Ho Hf Hp Hs.
  destruct (find_one_first _ _ _ Hf) as (l1 & l2 & Hc & Hl1 & Hdoc).
  assert (Hst : get payload "status" VNone = VStr s) by (apply get_some, Hp).
  assert (Hen : py_in (get payload "status" VNone) statuses = true).
  { apply py_in_enumerated. exists s. auto. }
  rewrite (update_order_status_hit d order_id payload o l1 doc l2 Hen Ho Hc Hl1 Hdoc).
  eexists _, _. split; [reflexivity|]. rewrite metrics_run. split; [reflexivity|].
  rewrite counts_order, Hst. cbn [total_menu active_orders completed_orders].
  split; [reflexivity|].
  unfold counts. cbn [active_orders completed_orders]. rewrite Hc.
  rewrite !length_filter_split.
  fold (tally ["pending"; "preparing"] ({["status" := VStr s]} ∪ doc)).
  fold (tally ["completed"] ({["status" := VStr s]} ∪ doc)).
  fold (tally ["pending"; "preparing"] doc). fold (tally ["completed"] doc).
  rewrite !tally_patch. split; lia.
Qed.

(** The pending order of two teas is completed: one active order less, one
    completed order more. *)
Lemma metrics_after_status_update_witness :
  exists d' m',
    update_order_status Scenario.order_id {["status" := VStr "completed"]}
      (Some Scenario.with_order) = (Ok true, Some d') /\
    metrics (Some d') = (Ok m', Some d') /\
    total_menu m' = total_menu (counts Scenario.with_order) /\
    (active_orders m' + 1 = active_orders (counts Scenario.with_order) + 0)%nat /\
    (completed_orders m' + 0 = completed_orders (counts Scenario.with_order) + 1)%nat.
Proof.
  assert (Hf : Store.find_one (by_id 3) (Store.coll Scenario.with_order "order")
               = Some (default ∅ (head (Store.coll Scenario.with_order "order"))))
    by vm_refl.
  exact (metrics_after_status_update Scenario.with_order Scenario.order_id
           {["status" := VStr "completed"]} 3%N _ "completed"
           eq_refl Hf eq_refl
           (or_intror (or_intror (or_intror (or_introl eq_refl))))).
Defined.

(** X12: an order just created can be moved on by the id that came back.
    The update reaches the new order and no older one, and rewrites its
    status and nothing else (for ids of twelve bytes, as object ids are). *)
Theorem created_order_status_update d payload r d' p s :
  (Store.generate d < 16 ^ 24)%N ->
  create_order payload (Some d) = (Ok r, Some d') ->
  p !! "status" = Some (VStr s) ->
  List.In s statuses ->
  exists doc,
    Store.coll d' "order" = (Store.coll d "order" ++ [doc])%list /\
    doc !! "status" = Some (VStr "pending") /\
    update_order_status (id r) p (Some d')
    = (Ok true,
       Some (<["order" := (Store.coll d "order" ++ [<["status" := VStr s]> doc])%list]> d')).
Proof.
  intros Hg Hrun Hp Hs. rewrite create_order_run in Hrun.
  destruct (priced_lines d _ [] Float.zero) as [[its sub]|e]; [|discriminate].
  cbv zeta in Hrun. injection Hrun as <- <-.
  set (o := build_order payload its).
  exists (<["_id" := VObjectId (Store.generate d)]> (Order.model_dump o)).
  assert (Hc : Store.coll (persist o d) "order"
               = (Store.coll d "order"
                  ++ [<["_id" := VObjectId (Store.generate d)]> (Order.model_dump o)])%list).
  { apply coll_insert_eq. }
  split; [exact Hc|]. split; [apply persisted_status|].
  assert (Hen : py_in (get p "status" VNone) statuses = true).
  { apply py_in_enumerated. exists s. split; [apply get_some, Hp|exact Hs]. }
  unfold created. cbn [id].
  rewrite (update_order_status_hit (persist o d) _ p (Store.generate d)
             (Store.coll d "order") _ [] Hen
             (ObjectIdFacts.of_str_to_str _ Hg) Hc (fresh_not_matches d "order")).
  - rewrite (get_some _ _ _ _ Hp), <- insert_union_singleton_l. reflexivity.
  - apply matches_by_id_iff. apply lookup_insert_eq.
Qed.

(** Two teas are ordered from the catalog and the order is set to
    [preparing]. *)
Lemma created_order_status_update_witness :
  exists doc,
    Store.coll Scenario.with_order "order" = (Store.coll Scenario.catalog "order" ++ [doc])%list /\
    doc !! "status" = Some (VStr "pending") /\
    update_order_status Scenario.order_id {["status" := VStr "preparing"]}
      (Some Scenario.with_order)
    = (Ok true,
       Some (<["order" := (Store.coll Scenario.catalog "order"
                           ++ [<["status" := VStr "preparing"]> doc])%list]>
               Scenario.with_order)).
Proof.
  assert (Hg : (Store.generate Scenario.catalog < 16 ^ 24)%N) by vm_refl.
  assert (Hrun : create_order (Scenario.request "Ann" [Scenario.line Scenario.tea_id (VInt 2)])
                   (Some Scenario.catalog)
                 = (Ok {| id := Scenario.order_id;
                          subtotal := S754_finite false 5629499534213120 (-48);
                          tax := Float.one;
                          total := S754_finite false 5910974510923776 (-48) |},
                    Some Scenario.with_order)).
  { vm_refl. }
  exact (created_order_status_update Scenario.catalog _ _ _
           {["status" := VStr "preparing"]} "preparing" Hg Hrun eq_refl
           (or_intror (or_introl eq_refl))).
Defined.

(** ** Orders after the catalog was edited *)

(** In a store with distinct ids the document that [find_one] reaches by
    its id is the only one that carries it. *)
Lemma unique_split d name o doc :
  store_wf d ->
  Store.find_one (by_id o) (Store.coll d name) = Some doc ->
  exists l1 l2,
    Store.coll d name = (l1 ++ doc :: l2)%list /\
    Forall (fun x => ~ has_id o x) l1 /\
    has_id o doc /\
    Forall (fun x => ~ has_id o x) l2.
Proof.
  intros Hwf Hf. destruct (find_one_first _ _ _ Hf) as (l1 & l2 & Hc & Hl1 & Hdoc).
  apply matches_by_id_iff in Hdoc.
  exists l1, l2. split; [exact Hc|]. split; [|split; [exact Hdoc|]].
  - eapply Forall_impl; [exact Hl1|]. intros x. apply not_matches_by_id.
  - destruct (store_wf_coll d name Hwf) as [_ Hn].
    rewrite Hc, map_app in Hn. apply NoDup_app in Hn. destruct Hn as (_ & _ & Hn).
    simpl in Hn. apply NoDup_cons in Hn. destruct Hn as [Hn _].
    apply List.Forall_forall. intros x Hx Hid. apply Hn.
    apply list_elem_of_In, in_map_iff. exists x. split; [|exact Hx].
    rewrite (has_id_doc_id _ _ Hid), (has_id_doc_id _ _ Hdoc). reflexivity.
Qed.

(** The menu item an id resolves to, when one document carries the id. *)
Lemma available_unique d o l1 x l2 doc :
  Store.coll d "menuitem" = (l1 ++ x :: l2)%list ->
  Forall (fun y => ~ has_id o y) l1 ->
  Forall (fun y => ~ has_id o y) l2 ->
  available d o = Some doc ->
  doc = x.
Proof.
  intros Hc Hl1 Hl2 Ha.
  destruct (available_is_available _ _ _ Ha) as [Hid _].
  unfold available, Store.find_one in Ha. apply find_some in Ha. destruct Ha as [Hin _].
  rewrite Hc in Hin. apply in_app_or in Hin. destruct Hin as [Hin|[Heq|Hin]].
  - rewrite List.Forall_forall in Hl1. destruct (Hl1 _ Hin Hid).
  - congruence.
  - rewrite List.Forall_forall in Hl2. destruct (Hl2 _ Hin Hid).
Qed.

Lemma available_unique_none d o l1 x l2 :
  Store.coll d "menuitem" = (l1 ++ x :: l2)%list ->
  Forall (fun y => ~ has_id o y) l1 ->
  Forall (fun y => ~ has_id o y) l2 ->
  x !! "is_available" <> Some (VBool true) ->
  available d o = None.
Proof.
  intros Hc Hl1 Hl2 Hx.
  destruct (available d o) as [doc|] eqn:Ha; [|reflexivity].
  pose proof (available_unique _ _ _ _ _ _ Hc Hl1 Hl2 Ha) as ->.
  destruct (available_is_available _ _ _ Ha) as [_ Hon]. destruct (Hx Hon).
Qed.

Lemma available_absent d o :
  Forall (fun y => ~ has_id o y) (Store.coll d "menuitem") ->
  available d o = None.
Proof.
  intros H. apply find_one_none, not_available_without_id, H.
Qed.

(** [update_menu_item] that returned, in a store with distinct ids. *)
Lemma update_menu_item_returned d item_id payload d' :
  store_wf d ->
  update_menu_item item_id payload (Some d) = (Ok true, Some d') ->
  exists o l1 doc l2,
    ObjectId.of_str item_id = Some o /\
    Store.coll d "menuitem" = (l1 ++ doc :: l2)%list /\
    Forall (fun x => ~ has_id o x) l1 /\
    has_id o doc /\
    Forall (fun x => ~ has_id o x) l2 /\
    d' = <["menuitem" := (l1 ++ (payload ∪ doc) :: l2)%list]> d.
Proof.
  intros Hwf. rewrite update_menu_item_run.
  destruct (ObjectId.of_str item_id) as [o|]; [|discriminate].
  destruct (Store.find_one _ _) as [doc|] eqn:Hf; [|discriminate].
  destruct (unique_split d "menuitem" o doc Hwf Hf) as (l1 & l2 & Hc & Hl1 & Hdoc & Hl2).
  rewrite Hc, (update_one_split _ payload _ _ l2).
  - intros [= <-]. exists o, l1, doc, l2. auto 10.
  - apply Forall_not_has_id, Hl1.
  - apply matches_by_id_iff, Hdoc.
Qed.

(** A request whose first line finds nothing on the menu. *)
Lemma create_order_first_unavailable d req i rest mid o q :
  CreateOrder.items req = i :: rest ->
  i !! "menu_item_id" = Some (VStr mid) ->
  py_int (get i "quantity" (VInt 1)) = Ok q ->
  ObjectId.of_str mid = Some o ->
  available d o = None ->
  create_order req (Some d)
  = (Raise (HTTPException 400 ("Menu item " ++ mid ++ " unavailable")), Some d).
Proof.
  intros Hitems Hmid Hq Ho Ha.
  apply (create_order_first_failure d req [] i rest [] _ Hitems (List.Forall2_nil _)).
  apply (priced_unavailable d i mid o q Hmid Hq Ho Ha).
Qed.

(** X13: a price set by [update_menu_item] is the price of the orders
    that follow.  In a store with distinct ids, after an update with a
    float [price] in its payload has returned, a one-line order for that
    item that is created has [subtotal = round(0.0 + price * quantity, 2)]
    with the new price. *)
Theorem price_edit_reaches_orders d item_id payload p d' req i r d'' :
  store_wf d ->
  payload !! "_id" = None ->
  payload !! "price" = Some (VFloat p) ->
  update_menu_item item_id payload (Some d) = (Ok true, Some d') ->
  CreateOrder.items req = [i] ->
  i !! "menu_item_id" = Some (VStr item_id) ->
  create_order req (Some d') = (Ok r, Some d'') ->
  exists q qf,
    py_int (get i "quantity" (VInt 1)) = Ok q /\
    Float.of_int q = Ok qf /\
    subtotal r = Float.round2 (Float.add Float.zero (Float.mul p qf)).
Proof.
  intros Hwf Hid Hp Hupd Hitems Hmid Hrun.
  destruct (update_menu_item_returned _ _ _ _ Hwf Hupd)
    as (o & l1 & doc & l2 & Ho & Hc & Hl1 & Hdoc & Hl2 & ->).
  rewrite (create_order_one_line _ req i Hitems) in Hrun.
  destruct (priced _ i) as [it|e] eqn:Hit; [|discriminate].
  injection Hrun as <- _.
  apply priced_ok in Hit.
  destruct Hit as (o' & doc' & qf & Ho' & Ha & Hq & Hpr & Hqf & Hlt & _).
  rewrite (get_some _ _ _ _ Hmid) in Ho'. cbn [ObjectId.make] in Ho'.
  rewrite Ho in Ho'. injection Ho' as <-.
  apply (available_unique _ o l1 (payload ∪ doc) l2) in Ha;
    [|apply coll_insert_eq|exact Hl1|exact Hl2].
  subst doc'.
  assert (Hprice : get (payload ∪ doc) "price" (VInt 0) = VFloat p).
  { apply get_some, lookup_union_Some_l, Hp. }
  rewrite Hprice in Hpr. simpl in Hpr. injection Hpr as Hpr.
  exists (Orderitem.quantity it), qf. split; [exact Hq|]. split; [exact Hqf|].
  unfold created, build_order, float_sum, line_totals. cbn [subtotal Order.subtotal map fold_left].
  rewrite Hlt, <- Hpr. reflexivity.
Qed.

Lemma store_wf_catalog : store_wf Scenario.catalog.
Proof.
  assert (H : Scenario.catalog
              = fst (Store.insert_one "menuitem" (Menuitem.model_dump Scenario.cake)
                       (fst (Store.insert_one "menuitem" (Menuitem.model_dump Scenario.tea) ∅))))
    by vm_refl.
  rewrite H. apply store_wf_insert_one, store_wf_insert_one, store_wf_empty.
Qed.

(** The tea is repriced from 10.00 to 5.00; two teas then cost 10.00. *)
Lemma price_edit_reaches_orders_witness :
  exists q qf,
    py_int (get (Scenario.line Scenario.tea_id (VInt 2)) "quantity" (VInt 1)) = Ok q /\
    Float.of_int q = Ok qf /\
    subtotal {| id := Scenario.order_id;
                subtotal := Scenario.ten;
                tax := S754_finite false 4503599627370496 (-53);
                total := S754_finite false 5910974510923776 (-49) |}
    = Float.round2 (Float.add Float.zero (Float.mul Scenario.five qf)).
Proof.
  pose (payload := {["price" := VFloat Scenario.five]} : document).
  pose (req := Scenario.request "Ann" [Scenario.line Scenario.tea_id (VInt 2)]).
  pose (d' := default ∅ (snd (update_menu_item Scenario.tea_id payload (Some Scenario.catalog)))).
  pose (d'' := default ∅ (snd (create_order req (Some d')))).
  assert (Hupd : update_menu_item Scenario.tea_id payload (Some Scenario.catalog)
                 = (Ok true, Some d')) by vm_refl.
  assert (Hrun : create_order req (Some d')
                 = (Ok {| id := Scenario.order_id;
                          subtotal := Scenario.ten;
                          tax := S754_finite false 4503599627370496 (-53);
                          total := S754_finite false 5910974510923776 (-49) |},
                    Some d'')) by vm_refl.
  assert (Hmid : Scenario.line Scenario.tea_id (VInt 2) !! "menu_item_id"
                 = Some (VStr Scenario.tea_id)) by vm_refl.
  exact (price_edit_reaches_orders Scenario.catalog Scenario.tea_id payload Scenario.five
           d' req _ _ d'' store_wf_catalog eq_refl eq_refl Hupd eq_refl Hmid Hrun).
Defined.

(** X14: an item taken off the menu cannot be ordered.  In a store with
    distinct ids, after [update_menu_item] has set [is_available] to a value
    that is neither [True] nor an array ([False], say), a request whose
    first line is for that item, with a quantity that [int] accepts, fails
    with "Menu item <id> unavailable" and stores nothing. *)
Theorem item_off_menu_not_orderable d item_id payload v d' req i rest q :
  store_wf d ->
  payload !! "_id" = None ->
  payload !! "is_available" = Some v ->
  v <> VBool true ->
  (forall l, v <> VList l) ->
  update_menu_item item_id payload (Some d) = (Ok true, Some d') ->
  CreateOrder.items req = i :: rest ->
  i !! "menu_item_id" = Some (VStr item_id) ->
  py_int (get i "quantity" (VInt 1)) = Ok q ->
  create_order req (Some d')
  = (Raise (HTTPException 400 ("Menu item " ++ item_id ++ " unavailable")), Some d').
Proof.
  intros Hwf Hid Hv Hoff _ Hupd Hitems Hmid Hq.
  destruct (update_menu_item_returned _ _ _ _ Hwf Hupd)
    as (o & l1 & doc & l2 & Ho & Hc & Hl1 & Hdoc & Hl2 & ->).
  apply (create_order_first_unavailable _ req i rest item_id o q Hitems Hmid Hq Ho).
  apply (available_unique_none _ o l1 (payload ∪ doc) l2);
    [apply coll_insert_eq|exact Hl1|exact Hl2|].
  rewrite (lookup_union_Some_l _ _ _ _ Hv). congruence.
Qed.

(** The tea is taken off the menu; an order of two teas then fails. *)
Lemma item_off_menu_not_orderable_witness :
  let d' := <["menuitem" :=
               [<["is_available" := VBool false]> (stored_item 1 Scenario.tea);
                stored_item 2 Scenario.cake]]> Scenario.catalog in
  create_order (Scenario.request "Ann" [Scenario.line Scenario.tea_id (VInt 2)]) (Some d')
  = (Raise (HTTPException 400 "Menu item 000000000000000000000001 unavailable"), Some d').
Proof.
  pose (payload := {["is_available" := VBool false]} : document).
  assert (Hupd : update_menu_item Scenario.tea_id payload (Some Scenario.catalog)
                 = (Ok true,
                    Some (<["menuitem" :=
                             [<["is_available" := VBool false]> (stored_item 1 Scenario.tea);
                              stored_item 2 Scenario.cake]]> Scenario.catalog))) by vm_refl.
  assert (Hmid : Scenario.line Scenario.tea_id (VInt 2) !! "menu_item_id"
                 = Some (VStr Scenario.tea_id)) by vm_refl.
  assert (Hq : py_int (get (Scenario.line Scenario.tea_id (VInt 2)) "quantity" (VInt 1)) = Ok 2)
    by vm_refl.
  assert (Hoff : VBool false <> VBool true) by discriminate.
  assert (Hscalar : forall l, VBool false <> VList l) by discriminate.
  exact (item_off_menu_not_orderable Scenario.catalog Scenario.tea_id payload (VBool false)
           _ (Scenario.request "Ann" [Scenario.line Scenario.tea_id (VInt 2)]) _ [] 2
           store_wf_catalog eq_refl eq_refl Hoff Hscalar Hupd eq_refl Hmid Hq).
Defined.

(** [delete_menu_item] that returned, in a store with distinct ids. *)
Lemma delete_menu_item_returned d item_id d' :
  store_wf d ->
  delete_menu_item item_id (Some d) = (Ok true, Some d') ->
  exists o,
    ObjectId.of_str item_id = Some o /\
    Forall (fun x => ~ has_id o x) (Store.coll d' "menuitem") /\
    forall name, name <> "menuitem" -> Store.coll d' name = Store.coll d name.
Proof.
  intros Hwf. rewrite delete_menu_item_run.
  destruct (ObjectId.of_str item_id) as [o|]; [|discriminate].
  destruct (Store.find_one _ _) as [doc|] eqn:Hf; [|discriminate].
  destruct (unique_split d "menuitem" o doc Hwf Hf) as (l1 & l2 & Hc & Hl1 & Hdoc & Hl2).
  rewrite Hc, (delete_one_split _ _ _ l2).
  - intros [= <-]. exists o. split; [reflexivity|]. split.
    + rewrite coll_insert_eq. apply Forall_app. auto.
    + intros name Hne. apply coll_insert_ne. congruence.
  - apply Forall_not_has_id, Hl1.
  - apply matches_by_id_iff, Hdoc.
Qed.

(** X15: a deleted item cannot be ordered, and the orders placed before
    keep their lines.  In a store with distinct ids, after
    [delete_menu_item] has returned, the orders are as they were, and a
    request whose first line is for the deleted item, with a quantity that
    [int] accepts, fails with "Menu item <id> unavailable" and stores
    nothing. *)
Theorem deleted_item_not_orderable d item_id d' req i rest q :
  store_wf d ->
  delete_menu_item item_id (Some d) = (Ok true, Some d') ->
  CreateOrder.items req = i :: rest ->
  i !! "menu_item_id" = Some (VStr item_id) ->
  py_int (get i "quantity" (VInt 1)) = Ok q ->
  Store.coll d' "order" = Store.coll d "order" /\
  create_order req (Some d')
  = (Raise (HTTPException 400 ("Menu item " ++ item_id ++ " unavailable")), Some d').
Proof.
  intros Hwf Hdel Hitems Hmid Hq.
  destruct (delete_menu_item_returned _ _ _ Hwf Hdel) as (o & Ho & Hgone & Hrest).
  split; [apply Hrest; discriminate|].
  apply (create_order_first_unavailable _ req i rest item_id o q Hitems Hmid Hq Ho).
  apply available_absent, Hgone.
Qed.

(** The tea is deleted after two teas were ordered: the order stays, and
    a new order of tea fails. *)
Lemma deleted_item_not_orderable_witness :
  let d' := <["menuitem" := [stored_item 2 Scenario.cake]]> Scenario.with_order in
  Store.coll d' "order" = Store.coll Scenario.with_order "order" /\
  create_order (Scenario.request "Bob" [Scenario.line Scenario.tea_id (VInt 1)]) (Some d')
  = (Raise (HTTPException 400 "Menu item 000000000000000000000001 unavailable"), Some d').
Proof.
  assert (Hwf : store_wf Scenario.with_order).
  { assert (H : Scenario.with_order
                = fst (Store.insert_one "order"
                         (default ∅ (Store.coll Scenario.with_order "order" !! 0%nat))
                         Scenario.catalog)) by vm_refl.
    rewrite H. apply store_wf_insert_one, store_wf_catalog. }
  assert (Hdel : delete_menu_item Scenario.tea_id (Some Scenario.with_order)
                 = (Ok true,
                    Some (<["menuitem" := [stored_item 2 Scenario.cake]]> Scenario.with_order)))
    by vm_refl.
  assert (Hmid : Scenario.line Scenario.tea_id (VInt 1) !! "menu_item_id"
                 = Some (VStr Scenario.tea_id)) by vm_refl.
  assert (Hq : py_int (get (Scenario.line Scenario.tea_id (VInt 1)) "quantity" (VInt 1)) = Ok 1)
    by vm_refl.
  exact (deleted_item_not_orderable Scenario.with_order Scenario.tea_id _
           (Scenario.request "Bob" [Scenario.line Scenario.tea_id (VInt 1)]) _ [] 1
           Hwf Hdel eq_refl Hmid Hq).
Defined.

(** ** The errors of [create_order] *)











(** ** Orders as they are listed *)

Lemma list_orders_run d : list_orders (Some d) = (stringify_ids (Store.coll d "order"), Some d).
Proof. reflexivity. Qed.

(** X16: what [create_order] creates is what [list_orders] shows.  On a
    store whose orders carry object ids, [list_orders] after a created
    order returns what it returned before followed by the new order: its
    [_id] is the id that came back, its amounts are the amounts that came
    back, its customer is the one of the request, its status is [pending]
    and it has one line for each requested line. *)
Theorem create_order_then_list d payload r d' :
  Forall has_object_id (Store.coll d "order") ->
  create_order payload (Some d) = (Ok r, Some d') ->
  exists before doc lines,
    list_orders (Some d) = (Ok before, Some d) /\
    list_orders (Some d') = (Ok (before ++ [doc])%list, Some d') /\
    doc !! "_id" = Some (VStr (id r)) /\
    doc !! "customer_name" = Some (VStr (CreateOrder.customer_name payload)) /\
    doc !! "status" = Some (VStr "pending") /\
    doc !! "subtotal" = Some (VFloat (subtotal r)) /\
    doc !! "tax" = Some (VFloat (tax r)) /\
    doc !! "total" = Some (VFloat (total r)) /\
    doc !! "items" = Some (VList lines) /\
    length lines = length (CreateOrder.items payload).
Proof.
  intros Hids Hrun. rewrite create_order_run in Hrun.
  destruct (priced_lines d _ [] Float.zero) as [[its sub]|e] eqn:Hl; [|discriminate].
  cbv zeta in Hrun. injection Hrun as <- <-.
  apply priced_lines_ok in Hl. destruct Hl as (its' & Hv & Heq & _).
  simpl in Heq. subst its'.
  set (o := build_order payload its).
  set (stored := <["_id" := VObjectId (Store.generate d)]> (Order.model_dump o)).
  exists (map listed (Store.coll d "order")),
         (<["_id" := VStr (ObjectId.to_str (Store.generate d))]> stored),
         (map Orderitem.model_dump its).
  assert (Hnew : has_id (Store.generate d) stored) by apply lookup_insert_eq.
  split.
  { rewrite list_orders_run, (stringify_ids_ok _ Hids). reflexivity. }
  split.
  { rewrite list_orders_run. unfold persist. rewrite coll_insert_eq.
    fold stored. rewrite stringify_ids_ok.
    - rewrite map_app. simpl. rewrite (listed_id _ _ Hnew). reflexivity.
    - apply Forall_app. split; [exact Hids|].
      constructor; [|constructor]. exists (Store.generate d). exact Hnew. }
  repeat (split; [reflexivity|]).
  rewrite length_map. symmetry. exact (Forall2_length _ _ _ Hv).
Qed.

(** Two teas are ordered from the catalog, which has no order yet. *)
Lemma create_order_then_list_witness :
  exists before doc lines,
    list_orders (Some Scenario.catalog) = (Ok before, Some Scenario.catalog) /\
    list_orders (Some Scenario.with_order) = (Ok (before ++ [doc])%list, Some Scenario.with_order) /\
    doc !! "_id" = Some (VStr Scenario.order_id) /\
    doc !! "customer_name" = Some (VStr "Ann") /\
    doc !! "status" = Some (VStr "pending") /\
    doc !! "subtotal" = Some (VFloat (S754_finite false 5629499534213120 (-48))) /\
    doc !! "tax" = Some (VFloat Float.one) /\
    doc !! "total" = Some (VFloat (S754_finite false 5910974510923776 (-48))) /\
    doc !! "items" = Some (VList lines) /\
    length lines = 1%nat.
Proof.
  assert (Hrun : create_order (Scenario.request "Ann" [Scenario.line Scenario.tea_id (VInt 2)])
                   (Some Scenario.catalog)
                 = (Ok {| id := Scenario.order_id;
                          subtotal := S754_finite false 5629499534213120 (-48);
                          tax := Float.one;
                          total := S754_finite false 5910974510923776 (-48) |},
                    Some Scenario.with_order)) by vm_refl.
  exact (create_order_then_list Scenario.catalog _ _ _ (List.Forall_nil _) Hrun).
Defined.

(** ** A line without an id *)

(** X18: a line without [menu_item_id], or with [None] for it, is not an
    invalid id: [ObjectId(None)] is a new id, which finds no menu item, so
    a request whose first line is such a line fails with "Menu item None
    unavailable" and stores nothing. *)
Theorem line_without_id_unavailable d req i rest q :
  CreateOrder.items req = i :: rest ->
  get i "menu_item_id" VNone = VNone ->
  py_int (get i "quantity" (VInt 1)) = Ok q ->
  create_order req (Some d)
  = (Raise (HTTPException 400 "Menu item None unavailable"), Some d).
Proof.
  intros Hitems Hmid Hq.
  apply (create_order_first_failure d req [] i rest [] _ Hitems (List.Forall2_nil _)).
  unfold priced, price_line. run_monad.
  rewrite Hq, Hmid. simpl.
  fold (available_filter (Store.generate d)). fold (available d (Store.generate d)).
  rewrite available_generate. reflexivity.
Qed.

(** A line with a quantity only. *)
Lemma line_without_id_unavailable_witness :
  create_order (Scenario.request "Ann" [{["quantity" := VInt 2]}]) (Some Scenario.catalog)
  = (Raise (HTTPException 400 "Menu item None unavailable"), Some Scenario.catalog).
Proof.
  apply (line_without_id_unavailable Scenario.catalog _ {["quantity" := VInt 2]} [] 2);
    vm_refl.
Defined.

(** ** Repeated edits *)

(** X19: [update_menu_item] is idempotent.  With a payload that does not
    set [_id], sending the same update again returns what the first one
    returned and leaves the store as the first one left it. *)
Theorem update_menu_item_idempotent d item_id payload :
  payload !! "_id" = None ->
  update_menu_item item_id payload (snd (update_menu_item item_id payload (Some d)))
  = update_menu_item item_id payload (Some d).
Proof.
  intros Hid. rewrite (update_menu_item_run d).
  destruct (ObjectId.of_str item_id) as [o|] eqn:Ho.
  2:{ cbn [snd]. rewrite update_menu_item_run, Ho. reflexivity. }
  destruct (Store.find_one (by_id o) (Store.coll d "menuitem")) as [doc|] eqn:Hf.
  2:{ cbn [snd]. rewrite update_menu_item_run, Ho, Hf. reflexivity. }
  destruct (find_one_first _ _ _ Hf) as (l1 & l2 & Hc & Hl1 & Hdoc).
  cbn [snd]. rewrite Hc, (update_one_split _ _ _ _ l2 Hl1 Hdoc). cbn [fst].
  assert (Hdoc' : Store.matches (by_id o) (payload ∪ doc) = true).
  { apply matches_by_id_iff. apply matches_by_id_iff in Hdoc. unfold has_id.
    rewrite lookup_union_r; [exact Hdoc|exact Hid]. }
  rewrite update_menu_item_run, Ho, coll_insert_eq.
  rewrite (find_one_split _ _ _ l2 Hl1 Hdoc'), (update_one_split _ _ _ _ l2 Hl1 Hdoc').
  cbn [fst]. rewrite insert_insert_eq, map_union_assoc, map_union_idemp. reflexivity.
Qed.

(** The tea is repriced twice to the same price. *)
Lemma update_menu_item_idempotent_witness :
  update_menu_item Scenario.tea_id {["price" := VFloat Scenario.five]}
    (snd (update_menu_item Scenario.tea_id {["price" := VFloat Scenario.five]}
            (Some Scenario.catalog)))
  = update_menu_item Scenario.tea_id {["price" := VFloat Scenario.five]}
      (Some Scenario.catalog).
Proof.
  apply (update_menu_item_idempotent Scenario.catalog Scenario.tea_id). vm_refl.
Defined.

(** ** The two order counts *)

Lemma length_filter_disjoint (P Q : document -> Prop)
  `{forall x, Decision (P x)} `{forall x, Decision (Q x)} (l : list document) :
  (forall x, P x -> Q x -> False) ->
  (length (filter P l) + length (filter Q l) <= length l)%nat.
Proof.
  intros Hd. induction l as [|x l IH]; simpl; [lia|].
  rewrite !filter_cons.
  destruct (decide (P x)) as [Hp|Hp]; destruct (decide (Q x)) as [Hq|Hq]; simpl; try lia.
  destruct (Hd x Hp Hq).
Qed.

(** X20: no order is counted twice by [metrics]: [active_orders] and
    [completed_orders] together are at most the number of orders, the
    orders that are [ready] or [cancelled], or have no status among the
    five, being in neither. *)
Theorem metrics_counts_disjoint d :
  exists m,
    metrics (Some d) = (Ok m, Some d) /\
    (active_orders m + completed_orders m <= length (Store.coll d "order"))%nat.
Proof.
  exists (counts d). split; [apply metrics_run|].
  unfold counts. cbn [active_orders completed_orders].
  apply length_filter_disjoint.
  intros doc (s1 & Hin1 & Hs1) (s2 & Hin2 & Hs2).
  rewrite Hs1 in Hs2. injection Hs2 as <-.
  destruct Hin2 as [<-|[]]. destruct Hin1 as [H|[H|[]]]; discriminate H.
Qed.

(** ** Prices that the schema of the menu forbids *)

(** X21: [update_menu_item] does not check a price, and a price that
    [Menuitem] forbids blocks the item.  In a store with distinct ids,
    after an update that sets [price] to a negative float or to NaN has
    returned, every request with a line for that item fails and stores
    nothing. *)
Theorem unchecked_price_blocks_orders d item_id payload p d' req i :
  store_wf d ->
  payload !! "_id" = None ->
  payload !! "price" = Some (VFloat p) ->
  ge0 p = false ->
  update_menu_item item_id payload (Some d) = (Ok true, Some d') ->
  List.In i (CreateOrder.items req) ->
  i !! "menu_item_id" = Some (VStr item_id) ->
  exists e, create_order req (Some d') = (Raise e, Some d').
Proof.
  intros Hwf Hid Hp Hneg Hupd Hin Hmid.
  destruct (update_menu_item_returned _ _ _ _ Hwf Hupd)
    as (o & l1 & doc & l2 & Ho & Hc & Hl1 & Hdoc & Hl2 & ->).
  apply (create_order_bad_line _ req i Hin).
  intros it (o' & doc' & qf & Ho' & Ha & _ & Hpr & _ & _ & _ & _ & _ & Hge & _).
  rewrite (get_some _ _ _ _ Hmid) in Ho'. cbn [ObjectId.make] in Ho'.
  rewrite Ho in Ho'. injection Ho' as <-.
  apply (available_unique _ o l1 (payload ∪ doc) l2) in Ha;
    [|apply coll_insert_eq|exact Hl1|exact Hl2].
  subst doc'.
  assert (Hprice : get (payload ∪ doc) "price" (VInt 0) = VFloat p).
  { apply get_some, lookup_union_Some_l, Hp. }
  rewrite Hprice in Hpr. simpl in Hpr. injection Hpr as Hpr.
  rewrite <- Hpr in Hge. congruence.
Qed.

(** The tea is repriced to -5.00; an order of two teas then fails. *)
Lemma unchecked_price_blocks_orders_witness :
  exists e,
    create_order (Scenario.request "Ann" [Scenario.line Scenario.tea_id (VInt 2)])
      (Some (<["menuitem" :=
                [<["price" := VFloat (S754_finite true 5629499534213120 (-50))]>
                   (stored_item 1 Scenario.tea);
                 stored_item 2 Scenario.cake]]> Scenario.catalog))
    = (Raise e,
       Some (<["menuitem" :=
                [<["price" := VFloat (S754_finite true 5629499534213120 (-50))]>
                   (stored_item 1 Scenario.tea);
                 stored_item 2 Scenario.cake]]> Scenario.catalog)).
Proof.
  pose (payload := {["price" := VFloat (S754_finite true 5629499534213120 (-50))]} : document).
  assert (Hupd : update_menu_item Scenario.tea_id payload (Some Scenario.catalog)
                 = (Ok true,
                    Some (<["menuitem" :=
                             [<["price" := VFloat (S754_finite true 5629499534213120 (-50))]>
                                (stored_item 1 Scenario.tea);
                              stored_item 2 Scenario.cake]]> Scenario.catalog))) by vm_refl.
  assert (Hmid : Scenario.line Scenario.tea_id (VInt 2) !! "menu_item_id"
                 = Some (VStr Scenario.tea_id)) by vm_refl.
  exact (unchecked_price_blocks_orders Scenario.catalog Scenario.tea_id payload _ _
           (Scenario.request "Ann" [Scenario.line Scenario.tea_id (VInt 2)]) _
           store_wf_catalog eq_refl eq_refl eq_refl Hupd (or_introl eq_refl) Hmid).
Defined.
